(** * Healthcare report watcher: the version extractors and the run loop

    A shallow embedding of [watcher.py].  Python values are modelled as the
    interpreter has them: a [str] is a sequence of Unicode code points, an
    [int] is a [Z], an exception is a value carried by the [Raise] outcome,
    the standard output, the network and the mail transport are threaded
    through an explicit [world]. *)

From Stdlib Require Import ZArith List String Ascii Lia DecimalString.
From stdpp Require Import base list gmap.

Local Open Scope Z_scope.

(** ** Python strings *)

(** A Python [str]: the list of its code points (0 .. 0x10FFFF; lone
    surrogates 0xD800 .. 0xDFFF are legal elements of a [str]). *)
Abbreviation pystr := (list Z).

(** An ASCII literal of the source as a [str]. *)
Definition py (s : string) : pystr :=
  map (fun a : ascii => Z.of_N (N_of_ascii a)) (list_ascii_of_string s).

(** [sep.join(parts)]. *)
Fixpoint join (sep : pystr) (parts : list pystr) : pystr :=
  match parts with
  | [] => []
  | [p] => p
  | p :: ps => p ++ sep ++ join sep ps
  end.

(** Truthiness of a [str] or of a [list]: empty is false. *)
Definition truthy {A} (l : list A) : bool :=
  match l with [] => false | _ => true end.

(** ** Exceptions and outcomes *)

(** An exception instance: its class and [str(e)].  Every class used below
    derives from [Exception]. *)
Record exn := Exception { exn_class : string; exn_str : pystr }.

Inductive result (A : Type) : Type :=
| Ok (a : A)
| Raise (e : exn).
Arguments Ok {A} a.
Arguments Raise {A} e.

#[global] Instance result_ret : MRet result := fun A a => Ok a.
#[global] Instance result_bind : MBind result := fun A B f m =>
  match m with Ok a => f a | Raise e => Raise e end.

(** ** Unicode character classes used by [re], [int] and [str.split] *)

(** The code points of the digit zero of every decimal-digit run of the
    Unicode database (category Nd, Unicode 14.0 as shipped with CPython
    3.11); each is followed by the digits one to nine of its script. *)
Definition decimal_zeros : list Z :=
  [ 0x30; 0x660; 0x6f0; 0x7c0; 0x966; 0x9e6; 0xa66; 0xae6; 0xb66; 0xbe6;
    0xc66; 0xce6; 0xd66; 0xde6; 0xe50; 0xed0; 0xf20; 0x1040; 0x1090;
    0x17e0; 0x1810; 0x1946; 0x19d0; 0x1a80; 0x1a90; 0x1b50; 0x1bb0;
    0x1c40; 0x1c50; 0xa620; 0xa8d0; 0xa900; 0xa9d0; 0xa9f0; 0xaa50;
    0xabf0; 0xff10; 0x104a0; 0x10d30; 0x11066; 0x110f0; 0x11136; 0x111d0;
    0x112f0; 0x11450; 0x114d0; 0x11650; 0x116c0; 0x11730; 0x118e0;
    0x11950; 0x11c50; 0x11d50; 0x11da0; 0x16a60; 0x16ac0; 0x16b50;
    0x1d7ce; 0x1d7d8; 0x1d7e2; 0x1d7ec; 0x1d7f6; 0x1e140; 0x1e2f0;
    0x1e950; 0x1fbf0 ].

(** [Py_UNICODE_TODECIMAL]: the digit value of a decimal digit. *)
Definition decimal_value (c : Z) : option Z :=
  match List.find (fun z => (z <=? c) && (c <? z + 10)) decimal_zeros with
  | Some z => Some (c - z)
  | None => None
  end.

(** [\d] of a [str] pattern: any Unicode decimal digit. *)
Definition is_decimal (c : Z) : bool :=
  match decimal_value c with Some _ => true | None => false end.

(** [Py_UNICODE_ISSPACE]: what [str.strip()] and [str.split()] drop. *)
Definition isspace (c : Z) : bool :=
  ((0x09 <=? c) && (c <=? 0x0d)) || ((0x1c <=? c) && (c <=? 0x20))
  || (c =? 0x85) || (c =? 0xa0) || (c =? 0x1680)
  || ((0x2000 <=? c) && (c <=? 0x200a))
  || (c =? 0x2028) || (c =? 0x2029) || (c =? 0x202f) || (c =? 0x205f)
  || (c =? 0x3000).

(** ** [int(s)] and [str(n)] *)

Fixpoint int_digits (acc : Z) (s : pystr) : option Z :=
  match s with
  | [] => Some acc
  | c :: s' =>
      match decimal_value c with
      | Some d => int_digits (acc * 10 + d) s'
      | None => None
      end
  end.

(** [int(s)] on a string of decimal digits; any other string is reported
    as the [ValueError] of the conversion (sign, blanks and underscores,
    which [int] also accepts, never occur in a match of the year pattern). *)
Definition py_int (s : pystr) : result Z :=
  match s with
  | [] => Raise (Exception "ValueError" (py "invalid literal for int() with base 10: ''"))
  | _ =>
      match int_digits 0 s with
      | Some n => Ok n
      | None =>
          Raise (Exception "ValueError"
                   (py "invalid literal for int() with base 10: '" ++ s ++ py "'"))
      end
  end.

(** [str(n)] for an [int]: its decimal numeral. *)
Definition py_str (n : Z) : pystr := py (NilZero.string_of_int (Z.to_int n)).

(** [max(l)] of a non-empty list, as the interpreter folds it. *)
Definition py_max (x : Z) (l : list Z) : Z := foldl Z.max x l.

(** ** [extract_latest_year] *)

(** One attempt of the pattern [20[0-4]\d] at the head of the input. *)
Definition year_match (a b c d : Z) : bool :=
  (a =? 0x32) && (b =? 0x30) && ((0x30 <=? c) && (c <=? 0x34)) && is_decimal d.

(** [re.findall(r"(20[0-4]\d)", html)]: the scan tries the pattern at the
    current position; a match is reported and the scan resumes after its
    four characters, a failure moves the scan one character on. *)
Fixpoint re_findall_year (html : pystr) : list pystr :=
  match html with
  | [] => []
  | a :: t =>
      match t with
      | b :: c :: d :: rest =>
          if year_match a b c d
          then [a; b; c; d] :: re_findall_year rest
          else re_findall_year t
      | _ => []
      end
  end.

Definition extract_latest_year (html : pystr) (min_year : Z) : result (option pystr) :=
  ys ← mapM py_int (re_findall_year html);
  let years : gset Z := list_to_set ys in
  let years := filter (fun y => min_year <= y) (elements years) in
  mret (match years with
        | [] => None
        | y :: rest => Some (py_str (py_max y rest))
        end).

(** The default argument [min_year: int = 2010]. *)
Definition extract_latest_year_default (html : pystr) : result (option pystr) :=
  extract_latest_year html 2010.

(** ** [str.encode("utf-8")] *)

Definition is_surrogate (c : Z) : bool := (0xd800 <=? c) && (c <=? 0xdfff).

(** The bytes of one code point that is not a surrogate. *)
Definition utf8_char (c : Z) : list Z :=
  if c <? 0x80 then [c]
  else if c <? 0x800 then
    [Z.lor 0xc0 (Z.shiftr c 6); Z.lor 0x80 (Z.land c 0x3f)]
  else if c <? 0x10000 then
    [Z.lor 0xe0 (Z.shiftr c 12);
     Z.lor 0x80 (Z.land (Z.shiftr c 6) 0x3f);
     Z.lor 0x80 (Z.land c 0x3f)]
  else
    [Z.lor 0xf0 (Z.shiftr c 18);
     Z.lor 0x80 (Z.land (Z.shiftr c 12) 0x3f);
     Z.lor 0x80 (Z.land (Z.shiftr c 6) 0x3f);
     Z.lor 0x80 (Z.land c 0x3f)].

Definition hex_digit (d : Z) : Z :=
  nth (Z.to_nat d) (py "0123456789abcdef") 0x30.

(** [len(l)] as an [int]. *)
Definition len {A} (l : list A) : Z := Z.of_nat (length l).

(** The number of leading surrogates of [s]. *)
Fixpoint surrogate_run (s : pystr) : Z :=
  match s with
  | c :: s' => if is_surrogate c then 1 + surrogate_run s' else 0
  | [] => 0
  end.

(** [str(e)] of the [UnicodeEncodeError] of the strict UTF-8 encoder: the
    offending range is the maximal run of surrogates starting at [start]
    (whose first character is [c], a code point of the BMP). *)
Definition surrogates_not_allowed (c start run : Z) : exn :=
  Exception "UnicodeEncodeError"
    (if run =? 1 then
       py "'utf-8' codec can't encode character '\u"
       ++ map (fun i => hex_digit (Z.land (Z.shiftr c (4 * i)) 15)) [3; 2; 1; 0]
       ++ py "' in position " ++ py_str start
       ++ py ": surrogates not allowed"
     else
       py "'utf-8' codec can't encode characters in position "
       ++ py_str start ++ py "-" ++ py_str (start + run - 1)
       ++ py ": surrogates not allowed").

(** The strict encoder at position [pos] of the string. *)
Fixpoint utf8_from (pos : Z) (s : pystr) : result (list Z) :=
  match s with
  | [] => Ok []
  | c :: s' =>
      if is_surrogate c
      then Raise (surrogates_not_allowed c pos (surrogate_run s))
      else bs ← utf8_from (pos + 1) s'; mret (utf8_char c ++ bs)
  end.

Definition encode_utf8 (s : pystr) : result (list Z) := utf8_from 0 s.

(** ** [hashlib.sha256] (FIPS 180-4), on 32-bit words held in [Z] *)

Module SHA256.

Definition w32 (x : Z) : Z := x mod 2 ^ 32.
Definition add32 (x y : Z) : Z := w32 (x + y).
Definition rotr (n x : Z) : Z := Z.lor (Z.shiftr x n) (w32 (Z.shiftl x (32 - n))).
Definition not32 (x : Z) : Z := Z.lxor x 0xffffffff.

Definition Ch (x y z : Z) : Z := Z.lxor (Z.land x y) (Z.land (not32 x) z).
Definition Maj (x y z : Z) : Z :=
  Z.lxor (Z.lxor (Z.land x y) (Z.land x z)) (Z.land y z).
Definition Sigma0 (x : Z) : Z := Z.lxor (Z.lxor (rotr 2 x) (rotr 13 x)) (rotr 22 x).
Definition Sigma1 (x : Z) : Z := Z.lxor (Z.lxor (rotr 6 x) (rotr 11 x)) (rotr 25 x).
Definition sigma0 (x : Z) : Z := Z.lxor (Z.lxor (rotr 7 x) (rotr 18 x)) (Z.shiftr x 3).
Definition sigma1 (x : Z) : Z := Z.lxor (Z.lxor (rotr 17 x) (rotr 19 x)) (Z.shiftr x 10).

(** The first 64 primes. *)
Definition is_prime (n : Z) : bool :=
  forallb (fun d => negb (n mod d =? 0)) (map Z.of_nat (seq 2 (Z.to_nat n - 2))).

Definition primes : list Z := List.filter is_prime (map Z.of_nat (seq 2 310)).

(** The integer part of a cube root, found bit by bit from the top. *)
Definition cube_root (n : Z) : Z :=
  fold_left (fun r b => let r' := r + 2 ^ Z.of_nat b in
                        if r' * r' * r' <=? n then r' else r)
            (rev (seq 0 36)) 0.

(** The round constants: the first 32 bits of the fractional parts of the
    cube roots of the first 64 primes. *)
Definition K : list Z :=
  Eval vm_compute in map (fun p => w32 (cube_root (p * 2 ^ 96))) primes.

(** The eight working variables, and the chaining value. *)
Record state := State { va : Z; vb : Z; vc : Z; vd : Z; ve : Z; vf : Z; vg : Z; vh : Z }.

(** The initial chaining value: the first 32 bits of the fractional parts
    of the square roots of the first 8 primes. *)
Definition H0 : state :=
  Eval vm_compute in
    match map (fun p => w32 (Z.sqrt (p * 2 ^ 64))) (firstn 8 primes) with
    | [a; b; c; d; e; f; g; h] => State a b c d e f g h
    | _ => State 0 0 0 0 0 0 0 0
    end.

(** Big-endian words of a block. *)
Fixpoint words (bytes : list Z) : list Z :=
  match bytes with
  | b0 :: b1 :: b2 :: b3 :: rest =>
      Z.lor (Z.lor (Z.shiftl b0 24) (Z.shiftl b1 16)) (Z.lor (Z.shiftl b2 8) b3)
      :: words rest
  | _ => []
  end.

(** The message schedule, most recent word first: [rev_w] holds W(t-1),
    W(t-2), ... *)
Fixpoint schedule (n : nat) (rev_w : list Z) : list Z :=
  match n with
  | O => rev_w
  | S n' =>
      let wt := add32 (add32 (sigma1 (nth 1 rev_w 0)) (nth 6 rev_w 0))
                      (add32 (sigma0 (nth 14 rev_w 0)) (nth 15 rev_w 0)) in
      schedule n' (wt :: rev_w)
  end.

Definition round (s : state) (kw : Z * Z) : state :=
  let t1 := add32 (add32 (add32 (vh s) (Sigma1 (ve s))) (Ch (ve s) (vf s) (vg s)))
                  (add32 (fst kw) (snd kw)) in
  let t2 := add32 (Sigma0 (va s)) (Maj (va s) (vb s) (vc s)) in
  State (add32 t1 t2) (va s) (vb s) (vc s) (add32 (vd s) t1) (ve s) (vf s) (vg s).

Definition compress (h : state) (block : list Z) : state :=
  let w := rev (schedule 48 (rev (words block))) in
  let s := fold_left round (combine K w) h in
  State (add32 (va h) (va s)) (add32 (vb h) (vb s)) (add32 (vc h) (vc s))
        (add32 (vd h) (vd s)) (add32 (ve h) (ve s)) (add32 (vf h) (vf s))
        (add32 (vg h) (vg s)) (add32 (vh h) (vh s)).

Definition be_bytes (n : nat) (x : Z) : list Z :=
  map (fun i => Z.land (Z.shiftr x (8 * Z.of_nat i)) 0xff) (rev (seq 0 n)).

Definition pad (msg : list Z) : list Z :=
  msg ++ [0x80] ++ repeat 0 (Z.to_nat ((55 - len msg) mod 64))
      ++ be_bytes 8 (8 * len msg).

Fixpoint blocks (n : nat) (bytes : list Z) (h : state) : state :=
  match n with
  | O => h
  | S n' => blocks n' (skipn 64 bytes) (compress h (firstn 64 bytes))
  end.

(** [.digest()]: 32 bytes. *)
Definition digest (msg : list Z) : list Z :=
  let p := pad msg in
  let h := blocks (length p / 64) p H0 in
  flat_map (be_bytes 4) [va h; vb h; vc h; vd h; ve h; vf h; vg h; vh h].

End SHA256.

(** [bytes.hex()]: two lower-case digits per byte. *)
Definition hex (bytes : list Z) : pystr :=
  flat_map (fun b => [hex_digit (Z.shiftr b 4); hex_digit (Z.land b 15)]) bytes.

(** [hashlib.sha256(data).hexdigest()]. *)
Definition sha256_hexdigest (data : list Z) : pystr := hex (SHA256.digest data).

(** ** [hash_page] *)

Definition hash_page (html : pystr) : result pystr :=
  data ← encode_utf8 html;
  mret (take 10 (sha256_hexdigest data)).

(** ** [str.strip()], [str.split()] *)

Fixpoint lstrip (s : pystr) : pystr :=
  match s with
  | c :: s' => if isspace c then lstrip s' else s
  | [] => []
  end.

Definition strip (s : pystr) : pystr := rev (lstrip (rev (lstrip s))).

(** [s.split()], with the characters of the current word held in reverse. *)
Fixpoint split_from (word : pystr) (s : pystr) : list pystr :=
  match s with
  | [] => match word with [] => [] | _ => [rev word] end
  | c :: s' =>
      if isspace c
      then match word with
           | [] => split_from [] s'
           | _ => rev word :: split_from [] s'
           end
      else split_from (c :: word) s'
  end.

Definition split (s : pystr) : list pystr := split_from [] s.

(** ** The parse tree of [bs4] *)

(** The classes of the strings of a tree. *)
Inductive string_class :=
| NavigableString | CData | Comment | Declaration | Doctype
| ProcessingInstruction | Script | Stylesheet | TemplateString.

(** A node of the tree: a string, or a tag with its children (attributes
    play no part in what the watcher reads). *)
#[warnings="-register-all"]
Inductive PageElement :=
| Str (cls : string_class) (s : pystr)
| Tag (name : pystr) (contents : list PageElement).

(** [tag.descendants]: the nodes below a tag, in document order. *)
Fixpoint descendants (e : PageElement) : list PageElement :=
  match e with
  | Str _ _ => []
  | Tag _ cs => flat_map (fun c => c :: descendants c) cs
  end.

Definition is_tag_named (name : pystr) (e : PageElement) : bool :=
  match e with
  | Tag n _ => bool_decide (n = name)
  | Str _ _ => false
  end.

(** [tag.find(name)]: the first descendant tag of that name, or [None]. *)
Definition find (e : PageElement) (name : pystr) : option PageElement :=
  List.find (is_tag_named name) (descendants e).

(** The strings [get_text] reads by default: [NavigableString] and [CData]
    objects, not comments and the like. *)
Definition interesting (cls : string_class) : bool :=
  match cls with NavigableString | CData => true | _ => false end.

(** The strings below a tag that [get_text] reads, in document order. *)
Definition text_strings (e : PageElement) : list pystr :=
  flat_map (fun d => match d with
                     | Str cls s => if interesting cls then [s] else []
                     | Tag _ _ => []
                     end) (descendants e).

(** [tag.get_text(strip=True)]: every string is stripped on its own, the
    ones left empty are dropped, the others are joined without separator. *)
Definition get_text_strip (e : PageElement) : pystr :=
  concat (List.filter truthy (map strip (text_strings e))).

(** [tag.get_text()]: the text content of the element. *)
Definition get_text (e : PageElement) : pystr := concat (text_strings e).

(** ** The collaborators of the watcher *)

(** The response of [requests.get]. *)
Record response := Response {
  status_code : Z;
  reason : pystr;
  resp_url : pystr;
  text : pystr
}.

(** The message built by [send_email]. *)
Record message := Message {
  msg_subject : pystr;
  msg_from : pystr;
  msg_to : pystr;
  msg_body : pystr
}.

(** What the process finds around it: the environment variables read at
    import, the network (the outcome of the [n]-th request of the run, for
    its URL), the HTML parser behind [BeautifulSoup(html, "html.parser")]
    and the mail transport (an SMTP session either delivers the message or
    raises). *)
Class Env := {
  SMTP_HOST : pystr;
  SMTP_PORT : Z;
  SMTP_USER : pystr;
  SMTP_PASS : pystr;
  EMAIL_FROM : pystr;
  EMAIL_TO : pystr;
  requests_get : nat -> pystr -> result response;
  BeautifulSoup : pystr -> result PageElement;
  smtp_session : message -> option exn
}.

(** The state the run changes: the requests made, the lines printed, the
    messages delivered; [notified] logs every call of [send_email] with
    its arguments. *)
Record world := World {
  requested : list pystr;
  stdout : list pystr;
  delivered : list message;
  notified : list (pystr * pystr)
}.

Definition M (A : Type) : Type := world -> result A * world.

#[global] Instance M_ret : MRet M := fun A a w => (Ok a, w).
#[global] Instance M_bind : MBind M := fun A B f m w =>
  match m w with
  | (Ok a, w') => f a w'
  | (Raise e, w') => (Raise e, w')
  end.

(** A pure computation inside the run. *)
Definition lift {A} (r : result A) : M A := fun w => (r, w).

(** [try: body except Exception as e: handler(e)]. *)
Definition try_except {A} (body : M A) (handler : exn -> M A) : M A := fun w =>
  match body w with
  | (Ok a, w') => (Ok a, w')
  | (Raise e, w') => handler e w'
  end.

(** [print(line)]; the standard output takes every line. *)
Definition print (line : pystr) : M unit := fun w =>
  (Ok tt, World (requested w) (stdout w ++ [line]) (delivered w) (notified w)).

Section Watcher.
Context {env : Env}.

(** [resp.raise_for_status()]. *)
Definition raise_for_status (resp : response) : result unit :=
  if (400 <=? status_code resp) && (status_code resp <? 500) then
    Raise (Exception "HTTPError"
             (py_str (status_code resp) ++ py " Client Error: " ++ reason resp
              ++ py " for url: " ++ resp_url resp))
  else if (500 <=? status_code resp) && (status_code resp <? 600) then
    Raise (Exception "HTTPError"
             (py_str (status_code resp) ++ py " Server Error: " ++ reason resp
              ++ py " for url: " ++ resp_url resp))
  else Ok tt.

Definition fetch_html (url : pystr) : M pystr := fun w =>
  let w' := World (requested w ++ [url]) (stdout w) (delivered w) (notified w) in
  (resp ← requests_get (length (requested w)) url;
   _ ← raise_for_status resp;
   mret (text resp), w').

Definition extract_kaufman_title (html : pystr) : result (option pystr) :=
  soup ← BeautifulSoup html;
  match find soup (py "h1") with
  | None => mret None
  | Some h1 =>
      let text := join (py " ") (split (get_text_strip h1)) in
      mret (if truthy text then Some text else None)
  end.

(** A source descriptor: a [dict] with the keys [id], [name] and [url],
    and optionally [mode] and [min_year] ([None]: the key is absent, and
    [src.get] supplies its default). *)
Record source := Source {
  id : pystr;
  name : pystr;
  url : pystr;
  mode : option pystr;
  min_year : option Z
}.

(** [x or default] on an optional string: [None] and the empty string are
    false. *)
Definition or_else (x : option pystr) (default : result pystr) : result pystr :=
  match x with
  | Some s => if truthy s then Ok s else default
  | None => default
  end.

Definition get_version_for_source (src : source) : M pystr :=
  html ← fetch_html (url src);
  let mode := default (py "hash") (mode src) in
  if bool_decide (mode = py "latest_year") then
    year ← lift (extract_latest_year html (default 2010 (min_year src)));
    lift (or_else year (Ok (py "unknown-year")))
  else if bool_decide (mode = py "kaufman_title") then
    label ← lift (extract_kaufman_title html);
    lift (or_else label (hash_page html))
  else if bool_decide (mode = py "hash") then
    lift (hash_page html)
  else
    lift (hash_page html).

Definition send_email (subject body : pystr) : M unit := fun w =>
  let w := World (requested w) (stdout w) (delivered w)
                 (notified w ++ [(subject, body)]) in
  if negb (truthy SMTP_USER && truthy SMTP_PASS && truthy EMAIL_FROM && truthy EMAIL_TO)
  then
    (_ ← print (py "Email settings not fully configured. Here's what would be sent:");
     _ ← print (py "SUBJECT: " ++ subject);
     print body) w
  else
    let msg := Message subject EMAIL_FROM EMAIL_TO body in
    match smtp_session msg with
    | Some e => (Raise e, w)
    | None =>
        (Ok tt, World (requested w) (stdout w) (delivered w ++ [msg]) (notified w))
    end.

Definition nl : pystr := [0x0a].

(** The loop of [run] over the sources still to visit, with the two lists
    built so far.  In the body of the [try] the line is appended before
    [print] is called; [print] does not raise here, so the handler never
    sees a list that already holds the line of the failing source. *)
Fixpoint run_loop (srcs : list source) (lines errors : list pystr)
  : M (list pystr * list pystr) :=
  match srcs with
  | [] => mret (lines, errors)
  | src :: rest =>
      let sid := id src in
      let name := name src in
      let url := url src in
      '(lines, errors) ←
        try_except
          (version ← get_version_for_source src;
           let lines := lines ++ [py "- " ++ name ++ py ": " ++ version
                                    ++ py "  (" ++ url ++ py ")"] in
           _ ← print (py "[OK] " ++ sid ++ py ": " ++ version);
           mret (lines, errors))
          (fun e =>
             let msg := py "[ERROR] " ++ sid ++ py ": " ++ exn_str e in
             _ ← print msg;
             mret (lines, errors ++ [msg]));
      run_loop rest lines errors
  end.

(** [run], over a registry. *)
Definition run_over (registry : list source) : M unit :=
  '(lines, errors) ← run_loop registry [] [];
  if negb (truthy lines) && truthy errors then
    let subject := py "Healthcare report watcher: ALL CHECKS FAILED" in
    let body := py "All sources failed to fetch:" ++ nl ++ nl ++ join nl errors in
    send_email subject body
  else
    let subject := py "Healthcare report watcher: latest snapshot" in
    let body := py "Here is the latest snapshot of monitored healthcare reports:"
                ++ nl ++ nl in
    let body := body ++ join nl lines in
    let body := if truthy errors
                then body ++ nl ++ nl ++ py "Errors:" ++ nl ++ join nl errors
                else body in
    send_email subject body.

End Watcher.

(** ** The registry *)

Definition endash : pystr := [0x2013].

Definition SOURCES : list source :=
  [ Source (py "cms_nhe")
      (py "CMS National Health Expenditure Projections")
      (py "https://www.cms.gov/data-research/statistics-trends-and-reports/national-health-expenditure-data/projected")
      (Some (py "latest_year")) (Some 2015);
    Source (py "kff_ehbs")
      (py "KFF Employer Health Benefits Survey")
      (py "https://www.kff.org/series/employer-health-benefits-survey/")
      (Some (py "latest_year")) (Some 2015);
    Source (py "trilliant_trends")
      (py "Trilliant " ++ endash ++ py " Health Economy Trends Report")
      (py "https://www.trillianthealth.com/market-research/reports/2025-health-economy-trends")
      (Some (py "hash")) None;
    Source (py "kaufman_flash")
      (py "Kaufman Hall National Hospital Flash Report")
      (py "https://www.kaufmanhall.com/insights-reports/national-hospital-flash-report")
      (Some (py "kaufman_title")) None;
    Source (py "milliman_mmi")
      (py "Milliman Medical Index")
      (py "https://www.milliman.com/en/insights/milliman-medical-index-archive")
      (Some (py "latest_year")) (Some 2010);
    Source (py "hcci_cost_util")
      (py "HCCI " ++ endash ++ py " Health Care Cost and Utilization Report")
      (py "https://healthcarecostinstitute.org/research/annual-reports")
      (Some (py "latest_year")) (Some 2010);
    Source (py "fair_health_indicators")
      (py "FAIR Health " ++ endash ++ py " Healthcare Indicators")
      (py "https://www.fairhealth.org/publications/white-papers")
      (Some (py "latest_year")) (Some 2015);
    Source (py "bgh_employer_strategy")
      (py "Business Group on Health " ++ endash ++ py " Large Employer Survey")
      (py "https://www.businessgrouphealth.org/en/topics/employer-survey")
      (Some (py "latest_year")) (Some 2015);
    Source (py "commonwealth_intl_survey")
      (py "Commonwealth Fund " ++ endash ++ py " International Health Policy Survey")
      (py "https://www.commonwealthfund.org/international-health-policy-survey")
      (Some (py "latest_year")) (Some 2010);
    Source (py "deloitte_us_outlook")
      (py "Deloitte " ++ endash ++ py " US Health Care Outlook")
      (py "https://www2.deloitte.com/us/en/pages/life-sciences-and-health-care/articles/us-health-care-industry-outlook.html")
      (Some (py "latest_year")) (Some 2015);
    Source (py "pwc_top_issues")
      (py "PwC " ++ endash ++ py " Top Health Industry Issues")
      (py "https://www.pwc.com/us/en/industries/health-industries/library/top-health-industry-issues.html")
      (Some (py "latest_year")) (Some 2015);
    Source (py "aha_fast_facts")
      (py "AHA " ++ endash ++ py " Fast Facts on U.S. Hospitals")
      (py "https://www.aha.org/statistics/fast-facts-us-hospitals")
      (Some (py "latest_year")) (Some 2010);
    Source (py "rand_hospital_prices")
      (py "RAND " ++ endash ++ py " Hospital Price Transparency Studies")
      (py "https://www.rand.org/health-care/projects/hospital-price-transparency.html")
      (Some (py "latest_year")) (Some 2010) ].

Definition run {env : Env} : M unit := run_over SOURCES.

(** ** An instance of the collaborators *)

(** A parser for plain markup: text without character references, and
    start and end tags, without attributes, of a few ordinary elements.
    On such input it builds the tree the [html.parser] builder of [bs4]
    builds; anything else is refused. *)
Module PlainMarkup.

Definition plain_tags : list pystr :=
  map py ["h1"; "h2"; "h3"; "p"; "b"; "i"; "em"; "strong"; "span"; "div"]%string.

(** An open tag with the children parsed so far, the latest first. *)
Record frame := Frame { frame_name : pystr; frame_kids : list PageElement }.

Definition ASCII_SPACES : list Z := [0x20; 0x0a; 0x09; 0x0c; 0x0d].

(** [endData]: the text collected since the last tag becomes one string of
    the innermost open tag; text made of ASCII blanks only is reduced to a
    single newline or space. *)
Definition end_data (data : pystr) (stack : list frame) : list frame :=
  match data, stack with
  | [], _ => stack
  | _, Frame n kids :: below =>
      let s := rev data in
      let s := if forallb (fun c => bool_decide (c ∈ ASCII_SPACES)) s
               then (if bool_decide (0x0a ∈ s) then [0x0a] else [0x20])
               else s in
      Frame n (Str NavigableString s :: kids) :: below
  | _, [] => []
  end.

(** Closing the innermost open tag attaches it to its parent. *)
Definition pop (stack : list frame) : list frame :=
  match stack with
  | Frame n kids :: Frame m kids' :: below =>
      Frame m (Tag n (rev kids) :: kids') :: below
  | _ => stack
  end.

(** [_popToTag]: close the open tags down to the most recent one of that
    name, if there is one. *)
Fixpoint pop_to (fuel : nat) (name : pystr) (stack : list frame) : list frame :=
  match fuel, stack with
  | S fuel', Frame n _ :: _ :: _ =>
      if bool_decide (n = name) then pop stack else pop_to fuel' name (pop stack)
  | _, _ => stack
  end.

Definition handle_endtag (name : pystr) (stack : list frame) : list frame :=
  if existsb (fun f => bool_decide (frame_name f = name)) (removelast stack)
  then pop_to (length stack) name stack
  else stack.

Inductive lexer := Data (data : pystr) | TagOpen | StartName (n : pystr) | EndName (n : pystr).

Definition unsupported : exn :=
  Exception "ParserRejectedMarkup" (py "markup outside the plain fragment").

Definition name_char (c : Z) : bool :=
  ((0x61 <=? c) && (c <=? 0x7a)) || ((0x30 <=? c) && (c <=? 0x39)).

Fixpoint feed (s : pystr) (st : lexer) (stack : list frame) : result (list frame) :=
  match s with
  | [] => match st with Data d => Ok (end_data d stack) | _ => Raise unsupported end
  | c :: s' =>
      match st with
      | Data d =>
          if c =? 0x3c then feed s' TagOpen (end_data d stack)
          else if c =? 0x26 then Raise unsupported
          else feed s' (Data (c :: d)) stack
      | TagOpen =>
          if c =? 0x2f then feed s' (EndName []) stack
          else if (0x61 <=? c) && (c <=? 0x7a) then feed s' (StartName [c]) stack
          else Raise unsupported
      | StartName n =>
          if c =? 0x3e then
            if bool_decide (rev n ∈ plain_tags)
            then feed s' (Data []) (Frame (rev n) [] :: stack)
            else Raise unsupported
          else if name_char c then feed s' (StartName (c :: n)) stack
          else Raise unsupported
      | EndName n =>
          if c =? 0x3e then
            if bool_decide (rev n ∈ plain_tags)
            then feed s' (Data []) (handle_endtag (rev n) stack)
            else Raise unsupported
          else if name_char c then feed s' (EndName (c :: n)) stack
          else Raise unsupported
      end
  end.

Definition parse (html : pystr) : result PageElement :=
  stack ← feed html (Data []) [Frame (py "[document]") []];
  match Nat.iter (length stack) pop stack with
  | [Frame n kids] => Ok (Tag n (rev kids))
  | _ => Raise unsupported
  end.

(** A process without mail settings, in front of a network that answers
    the [n]-th request with [pages n]. *)
Definition env (pages : nat -> result response) : Env := {|
  SMTP_HOST := py "smtp.gmail.com";
  SMTP_PORT := 587;
  SMTP_USER := [];
  SMTP_PASS := [];
  EMAIL_FROM := [];
  EMAIL_TO := [];
  requests_get := fun n _ => pages n;
  BeautifulSoup := parse;
  smtp_session := fun _ => None
|}.

(** The network that always answers 200 with the same page. *)
Definition serves (html : pystr) : Env :=
  env (fun _ => Ok (Response 200 (py "OK") [] html)).

End PlainMarkup.

Definition empty_world : world := World [] [] [] [].

(** ** The wording of the specification *)

(** [w] occurs in [s] as a substring. *)
Fixpoint starts_with (w s : pystr) : bool :=
  match w, s with
  | [], _ => true
  | a :: w', b :: s' => (a =? b) && starts_with w' s'
  | _ :: _, [] => false
  end.

Fixpoint occurs (w s : pystr) : bool :=
  starts_with w s || match s with [] => false | _ :: s' => occurs w s' end.

Definition ascii_digit (c : Z) : bool := (0x30 <=? c) && (c <=? 0x39).

(** "Two literal digits 20, one digit in 0-4, one digit 0-9". *)
Definition spec_year_match (a b c d : Z) : bool :=
  (a =? 0x32) && (b =? 0x30) && ((0x30 <=? c) && (c <=? 0x34)) && ascii_digit d.

(** "All substrings matching a 4-digit year": every position counts. *)
Fixpoint spec_year_substrings (content : pystr) : list pystr :=
  match content with
  | [] => []
  | a :: t =>
      match t with
      | b :: c :: d :: _ =>
          if spec_year_match a b c d
          then [a; b; c; d] :: spec_year_substrings t
          else spec_year_substrings t
      | _ => []
      end
  end.

(** The integer a string of decimal digits denotes. *)
Definition year_value (w : pystr) : Z := default 0 (int_digits 0 w).

(** The maximum of a list of integers, if it has one. *)
Definition maximum (l : list Z) : option Z :=
  foldr (fun y m => Some (match m with Some x => Z.max y x | None => y end)) None l.

(** "Collect into a set of integers (deduplicated), filter to values >=
    min_year, and return the decimal string of the maximum surviving
    value", over the words [ws]. *)
Definition latest_of (ws : list pystr) (min_year : Z) : option pystr :=
  py_str <$> maximum (filter (fun y => min_year <= y) (remove_dups (year_value <$> ws))).

Definition spec_latest_year (content : pystr) (min_year : Z) : option pystr :=
  latest_of (spec_year_substrings content) min_year.

(** The matches of a scan from left to right in which a match consumes
    its four characters. *)
Inductive scan : pystr -> list pystr -> Prop :=
| scan_short s : (length s < 4)%nat -> scan s []
| scan_hit a b c d rest ms :
    year_match a b c d = true -> scan rest ms ->
    scan (a :: b :: c :: d :: rest) ([a; b; c; d] :: ms)
| scan_miss a b c d rest ms :
    year_match a b c d = false -> scan (b :: c :: d :: rest) ms ->
    scan (a :: b :: c :: d :: rest) ms.

(** "Collapse all internal whitespace runs to single spaces, and trim
    leading and trailing whitespace": [started] once a character was
    written, [pending] when whitespace was seen since. *)
Fixpoint collapse_from (started pending : bool) (s : pystr) : pystr :=
  match s with
  | [] => []
  | c :: s' =>
      if isspace c then collapse_from started started s'
      else (if pending then [0x20; c] else [c]) ++ collapse_from true false s'
  end.

Definition collapse (s : pystr) : pystr := collapse_from false false s.

(** A string without any character that is not whitespace. *)
Definition blank (s : pystr) : bool := forallb isspace s.

(** The outcome of a source when [k] requests were made before its own. *)
Definition outcome_at {env : Env} (k : nat) (src : source) : result pystr :=
  fst (get_version_for_source src (World (replicate k []) [] [] [])).


Definition error_line (src : source) (e : exn) : pystr :=
  py "[ERROR] " ++ id src ++ py ": " ++ exn_str e.


Definition failure_of (so : source * result pystr) : option pystr :=
  match so with (src, Raise e) => Some (error_line src e) | (_, Ok _) => None end.

(** The sources of a registry with their outcomes, the first request of
    the loop being the [k]-th of the run. *)
Fixpoint outcomes {env : Env} (k : nat) (registry : list source)
  : list (source * result pystr) :=
  match registry with
  | [] => []
  | src :: rest => (src, outcome_at k src) :: outcomes (S k) rest
  end.


Definition is_hex (c : Z) : bool :=
  ((0x30 <=? c) && (c <=? 0x39)) || ((0x61 <=? c) && (c <=? 0x66)).

(** A lone surrogate somewhere in the string. *)
Definition has_surrogate (s : pystr) : bool := existsb is_surrogate s.

(** The world after a request: nothing else changes. *)
Definition after_request (u : pystr) (w : world) : world :=
  World (requested w ++ [u]) (stdout w) (delivered w) (notified w).



(** ** Pages and sources of the examples *)

(** The heading of the specification's example. *)
Definition report_page : pystr := py "<h1>  Report   Title" ++ nl ++ py "2025 </h1>".

(** A heading whose text is split by an inline element. *)
Definition inline_page : pystr := py "<h1>Report <b>Title</b></h1>".

Definition inline_heading : PageElement :=
  Tag (py "h1") [Str NavigableString (py "Report ");
                 Tag (py "b") [Str NavigableString (py "Title")]].

(** A heading without text. *)
Definition empty_heading_page : pystr := py "<h1></h1>".

(** The page without heading of the specification's example. *)
Definition plain_page : pystr := py "<p>no heading</p>".

(** The same page with half of a surrogate pair in its text. *)
Definition broken_page : pystr := py "<p>no heading " ++ [0xd83d] ++ py "</p>".

(** The error of the encoder on [broken_page]. *)
Definition broken_page_error : exn :=
  Exception "UnicodeEncodeError"
    (py "'utf-8' codec can't encode character '\ud83d' in position 14: surrogates not allowed").

(** The source of the registry that reads a title. *)
Definition kaufman_flash : source :=
  Source (py "kaufman_flash")
    (py "Kaufman Hall National Hospital Flash Report")
    (py "https://www.kaufmanhall.com/insights-reports/national-hospital-flash-report")
    (Some (py "kaufman_title")) None.

(** A source whose mode the watcher does not know. *)
Definition feed_source : source :=
  Source (py "feed") (py "Feed") (py "https://example.org/feed") (Some (py "rss")) None.

(** ** Further notions for the properties of the watcher *)




(** The characters of a string that are not whitespace. *)
Definition visible (s : pystr) : pystr := List.filter (fun c => negb (isspace c)) s.

(** A tidy line: words separated by single spaces.  [after_space] tells
    that the previous character was a space, or that the line starts. *)
Fixpoint tidy (after_space : bool) (t : pystr) : bool :=
  match t with
  | [] => negb after_space
  | c :: t' =>
      if isspace c then negb after_space && (c =? 0x20) && tidy true t'
      else tidy false t'
  end.


(** A page answered with the status 304. *)
Definition not_modified : response := Response 304 (py "Not Modified") [] (py "cached 2024").



(** * Properties *)

(** ** Decimal digits and numerals *)

Lemma decimal_value_range c v : decimal_value c = Some v -> 0 <= v <= 9.
Proof.
  unfold decimal_value.
  destruct (List.find _ decimal_zeros) as [z|] eqn:E; [|discriminate].
  intros [= <-]. apply find_some in E as [_ E]. lia.
Qed.

Lemma decimal_value_ascii c : ascii_digit c = true -> decimal_value c = Some (c - 0x30).
Proof.
  unfold ascii_digit. intros Hc.
  assert (Hk : exists k, (k < 10)%nat /\ c = 0x30 + Z.of_nat k).
  { exists (Z.to_nat (c - 0x30)). lia. }
  destruct Hk as (k & Hk & ->).
  do 10 (destruct k as [|k]; [reflexivity|]). lia.
Qed.

Lemma ascii_digit_decimal c : ascii_digit c = true -> is_decimal c = true.
Proof. intros Hc. unfold is_decimal. by rewrite decimal_value_ascii. Qed.

(** The numeral of a year of the pattern's range. *)
Lemma py_str_year y :
  2000 <= y <= 2049 ->
  py_str y = [0x32; 0x30; 0x30 + (y - 2000) / 10; 0x30 + (y - 2000) mod 10].
Proof.
  intros Hy.
  assert (Hk : exists k, (k < 50)%nat /\ y = 2000 + Z.of_nat k).
  { exists (Z.to_nat (y - 2000)). lia. }
  destruct Hk as (k & Hk & ->).
  assert (Hall : forallb (fun k => bool_decide
            (py_str (2000 + Z.of_nat k)
             = [0x32; 0x30; 0x30 + (2000 + Z.of_nat k - 2000) / 10;
                0x30 + (2000 + Z.of_nat k - 2000) mod 10])) (seq 0 50) = true)
    by (vm_compute; reflexivity).
  rewrite forallb_forall in Hall.
  specialize (Hall k). rewrite bool_decide_eq_true in Hall.
  apply Hall, in_seq. lia.
Qed.

Lemma py_str_year_length y : 2000 <= y <= 2049 -> length (py_str y) = 4%nat.
Proof. intros Hy. by rewrite py_str_year. Qed.

(** ** The year pattern *)

Lemma year_match_inv a b c d :
  year_match a b c d = true ->
  a = 0x32 /\ b = 0x30 /\ 0x30 <= c <= 0x34 /\
  exists v, decimal_value d = Some v /\ 0 <= v <= 9.
Proof.
  unfold year_match, is_decimal. intros Hm.
  destruct (decimal_value d) as [v|] eqn:Ed.
  - repeat split; try lia. exists v. split; [done|]. by eapply decimal_value_range.
  - rewrite !andb_false_r in Hm. discriminate.
Qed.

Lemma year_match_value a b c d :
  year_match a b c d = true ->
  exists v, decimal_value d = Some v /\ 0 <= v <= 9 /\
    int_digits 0 [a; b; c; d] = Some (2000 + 10 * (c - 0x30) + v).
Proof.
  intros (-> & -> & Hc & v & Hv & Hr)%year_match_inv.
  exists v. repeat split; try done; try lia.
  cbn [int_digits].
  change (decimal_value 50) with (Some 2). change (decimal_value 48) with (Some 0).
  rewrite (decimal_value_ascii c) by (unfold ascii_digit; lia).
  rewrite Hv. f_equal. lia.
Qed.

Lemma year_match_py_int a b c d :
  year_match a b c d = true -> py_int [a; b; c; d] = Ok (year_value [a; b; c; d]).
Proof.
  intros (v & _ & _ & Hv)%year_match_value.
  unfold py_int, year_value. by rewrite Hv.
Qed.

Lemma year_match_range a b c d :
  year_match a b c d = true -> 2000 <= year_value [a; b; c; d] <= 2049.
Proof.
  intros Hm. pose proof (year_match_inv _ _ _ _ Hm) as (_ & _ & Hc & _).
  destruct (year_match_value _ _ _ _ Hm) as (v & _ & Hr & Hv).
  unfold year_value. rewrite Hv. simpl. lia.
Qed.

(** A match that ends in an ASCII digit is the numeral of its value. *)
Lemma year_match_numeral a b c d :
  year_match a b c d = true -> ascii_digit d = true ->
  py_str (year_value [a; b; c; d]) = [a; b; c; d].
Proof.
  intros Hm Hd. pose proof (year_match_range _ _ _ _ Hm) as Hr.
  pose proof (year_match_inv _ _ _ _ Hm) as (-> & -> & Hc & _).
  destruct (year_match_value _ _ _ _ Hm) as (v & Hdv & Hv & Hi).
  rewrite decimal_value_ascii in Hdv by done. injection Hdv as <-.
  rewrite py_str_year by done. unfold year_value. rewrite Hi. simpl.
  unfold ascii_digit in Hd.
  assert (Hq : (2000 + 10 * (c - 48) + (d - 48) - 2000) / 10 = c - 48)
    by (symmetry; apply (Z.div_unique _ 10 _ (d - 48)); lia).
  assert (Hm' : (2000 + 10 * (c - 48) + (d - 48) - 2000) mod 10 = d - 48)
    by (symmetry; apply (Z.mod_unique _ 10 (c - 48)); lia).
  rewrite Hq, Hm'. repeat f_equal; lia.
Qed.

(** ** The scan of [re.findall] *)

Lemma re_findall_year_ind (P : pystr -> list pystr -> Prop) :
  (forall s, (length s < 4)%nat -> P s []) ->
  (forall a b c d rest, year_match a b c d = true ->
     P rest (re_findall_year rest) ->
     P (a :: b :: c :: d :: rest) ([a; b; c; d] :: re_findall_year rest)) ->
  (forall a b c d rest, year_match a b c d = false ->
     P (b :: c :: d :: rest) (re_findall_year (b :: c :: d :: rest)) ->
     P (a :: b :: c :: d :: rest) (re_findall_year (b :: c :: d :: rest))) ->
  forall s, P s (re_findall_year s).
Proof.
  intros Hshort Hhit Hmiss s.
  remember (length s) as n eqn:Hn. revert s Hn.
  induction (lt_wf n) as [n _ IH]. intros s ->.
  destruct s as [|a [|b [|c [|d rest]]]];
    try (apply Hshort; simpl; lia).
  cbn [re_findall_year]. destruct (year_match a b c d) eqn:Hm.
  - apply Hhit; [done|]. eapply IH; [|reflexivity]. simpl. lia.
  - apply Hmiss; [done|]. eapply IH; [|reflexivity]. simpl. lia.
Qed.

Lemma re_findall_year_short s : (length s < 4)%nat -> re_findall_year s = [].
Proof. destruct s as [|a [|b [|c [|d rest]]]]; simpl; try done; lia. Qed.

(** [re_findall_year] computes the scan, and the scan has one result. *)
Lemma re_findall_year_scan s : scan s (re_findall_year s).
Proof.
  apply (re_findall_year_ind scan).
  - by constructor.
  - intros. by constructor.
  - intros. by apply scan_miss.
Qed.

Lemma scan_functional s ms : scan s ms -> ms = re_findall_year s.
Proof.
  induction 1 as [s Hs|a b c d rest ms Hm _ IH|a b c d rest ms Hm _ IH].
  - by rewrite re_findall_year_short.
  - cbn [re_findall_year]. by rewrite Hm, IH.
  - cbn [re_findall_year]. by rewrite Hm.
Qed.

(** Every reported match is a match of the pattern at some position. *)
Lemma re_findall_year_sound s m :
  m ∈ re_findall_year s ->
  exists pre a b c d post,
    s = pre ++ [a; b; c; d] ++ post /\ m = [a; b; c; d] /\ year_match a b c d = true.
Proof.
  revert m. apply (re_findall_year_ind (fun s ms => forall m, m ∈ ms ->
    exists pre a b c d post,
      s = pre ++ [a; b; c; d] ++ post /\ m = [a; b; c; d] /\ year_match a b c d = true)).
  - intros ? _ m Hin. by apply elem_of_nil in Hin.
  - intros a b c d rest Hm IH m [->|Hin]%elem_of_cons.
    + by exists [], a, b, c, d, rest.
    + destruct (IH m Hin) as (pre & a' & b' & c' & d' & post & -> & -> & Hm').
      by exists (a :: b :: c :: d :: pre), a', b', c', d', post.
  - intros a b c d rest _ IH m Hin.
    destruct (IH m Hin) as (pre & a' & b' & c' & d' & post & E & -> & Hm').
    exists (a :: pre), a', b', c', d', post. by rewrite E.
Qed.

(** Every match of the pattern in the input is reported, unless it starts
    inside a match that begins one to three characters before it. *)
Lemma re_findall_year_complete s pre a b c d post :
  s = pre ++ [a; b; c; d] ++ post -> year_match a b c d = true ->
  [a; b; c; d] ∈ re_findall_year s \/
  exists pre' a' b' c' d' post',
    s = pre' ++ [a'; b'; c'; d'] ++ post' /\ year_match a' b' c' d' = true /\
    [a'; b'; c'; d'] ∈ re_findall_year s /\
    (length pre' < length pre < length pre' + 4)%nat.
Proof.
  revert pre. apply (re_findall_year_ind (fun s ms => forall pre,
    s = pre ++ [a; b; c; d] ++ post -> year_match a b c d = true ->
    [a; b; c; d] ∈ ms \/
    exists pre' a' b' c' d' post',
      s = pre' ++ [a'; b'; c'; d'] ++ post' /\ year_match a' b' c' d' = true /\
      [a'; b'; c'; d'] ∈ ms /\
      (length pre' < length pre < length pre' + 4)%nat)).
  - intros s0 Hs pre -> _. rewrite !length_app in Hs. simpl in Hs. lia.
  - intros a0 b0 c0 d0 rest Hm0 IH pre E Hm.
    destruct pre as [|x1 [|x2 [|x3 [|x4 pre]]]]; simpl in E.
    + injection E as -> -> -> -> _. left. apply list_elem_of_here.
    + right. exists [], a0, b0, c0, d0, rest.
      split; [done|]. split; [done|]. split; [apply list_elem_of_here|]. simpl. lia.
    + right. exists [], a0, b0, c0, d0, rest.
      split; [done|]. split; [done|]. split; [apply list_elem_of_here|]. simpl. lia.
    + right. exists [], a0, b0, c0, d0, rest.
      split; [done|]. split; [done|]. split; [apply list_elem_of_here|]. simpl. lia.
    + injection E as -> -> -> -> E.
      destruct (IH pre E Hm) as [Hin|(pre' & a' & b' & c' & d' & post' & E' & Hm' & Hin & Hl)].
      * left. by apply list_elem_of_further.
      * right. exists (x1 :: x2 :: x3 :: x4 :: pre'), a', b', c', d', post'.
        split; [by rewrite E'|]. split; [done|].
        split; [by apply list_elem_of_further|]. simpl. lia.
  - intros a0 b0 c0 d0 rest Hm0 IH pre E Hm.
    destruct pre as [|x1 pre]; simpl in E.
    + injection E as -> -> -> -> _. congruence.
    + injection E as -> E.
      destruct (IH pre E Hm) as [Hin|(pre' & a' & b' & c' & d' & post' & E' & Hm' & Hin & Hl)].
      * by left.
      * right. exists (x1 :: pre'), a', b', c', d', post'.
        split; [by rewrite E'|]. split; [done|]. split; [done|]. simpl. lia.
Qed.

Lemma mapM_py_int_findall s :
  mapM py_int (re_findall_year s) = Ok (year_value <$> re_findall_year s).
Proof.
  apply (re_findall_year_ind (fun _ ms => mapM py_int ms = Ok (year_value <$> ms))).
  - done.
  - intros a b c d rest Hm IH.
    change (mapM py_int ([a; b; c; d] :: re_findall_year rest))
      with (y ← py_int [a; b; c; d]; k ← mapM py_int (re_findall_year rest); mret (y :: k)).
    by rewrite year_match_py_int, IH.
  - done.
Qed.

(** ** Maxima *)

Lemma maximum_None l : maximum l = None <-> l = [].
Proof. destruct l; simpl; split; congruence. Qed.

Lemma maximum_spec l m :
  maximum l = Some m <-> m ∈ l /\ forall y, y ∈ l -> y <= m.
Proof.
  revert m. induction l as [|x l IH]; intros m; simpl.
  - split; [discriminate|]. intros [Hin _]. by apply elem_of_nil in Hin.
  - destruct (maximum l) as [m'|] eqn:E.
    + destruct (proj1 (IH m') eq_refl) as [Hin Hub]. split.
      * intros [= <-]. split.
        -- destruct (Z.max_spec x m') as [[_ ->]|[_ ->]];
             [by apply list_elem_of_further | by apply list_elem_of_here].
        -- intros y [->|Hy]%elem_of_cons; [lia|]. specialize (Hub y Hy). lia.
      * intros [Hm Hall]. f_equal.
        assert (x <= m) by (apply Hall, list_elem_of_here).
        assert (m' <= m) by (by apply Hall, list_elem_of_further).
        apply elem_of_cons in Hm as [->|Hm]; [lia|]. specialize (Hub m Hm). lia.
    + apply maximum_None in E as ->. split.
      * intros [= <-]. split; [apply list_elem_of_here|].
        intros y [->|Hy]%elem_of_cons; [lia|]. by apply elem_of_nil in Hy.
      * intros [[->|Hm]%elem_of_cons _]; [done|]. by apply elem_of_nil in Hm.
Qed.

Lemma py_max_spec x l :
  py_max x l ∈ x :: l /\ forall y, y ∈ x :: l -> y <= py_max x l.
Proof.
  unfold py_max. revert x. induction l as [|z l IH]; intros x; simpl.
  - split; [apply list_elem_of_here|]. intros y Hy%list_elem_of_singleton. lia.
  - destruct (IH (Z.max x z)) as [Hin Hub]. split.
    + apply elem_of_cons in Hin as [->|Hin].
      * destruct (Z.max_spec x z) as [[_ ->]|[_ ->]];
          [apply list_elem_of_further, list_elem_of_here | apply list_elem_of_here].
      * by do 2 apply list_elem_of_further.
    + intros y Hy.
      assert (Z.max x z <= foldl Z.max (Z.max x z) l) by apply Hub, list_elem_of_here.
      apply elem_of_cons in Hy as [->|[->|Hy]%elem_of_cons]; [lia|lia|].
      by apply Hub, list_elem_of_further.
Qed.

(** The list the code filters and the deduplicated list of the
    specification hold the same integers. *)
Lemma surviving_years (ys : list Z) min_year y :
  y ∈ filter (fun y => min_year <= y) (elements (list_to_set ys : gset Z)) <->
  y ∈ filter (fun y => min_year <= y) (remove_dups ys).
Proof.
  rewrite !list_elem_of_filter, elem_of_elements, elem_of_list_to_set, elem_of_remove_dups.
  done.
Qed.

Lemma extract_latest_year_eq content min_year :
  extract_latest_year content min_year = Ok (latest_of (re_findall_year content) min_year).
Proof.
  unfold extract_latest_year, latest_of. rewrite mapM_py_int_findall.
  change (Ok ?x ≫= ?f) with (f x). cbv beta zeta. unfold mret, result_ret. f_equal.
  set (ys := year_value <$> re_findall_year content).
  pose proof (surviving_years ys min_year) as Hsame.
  destruct (filter _ (elements _)) as [|y rest] eqn:E.
  - destruct (maximum _) as [m|] eqn:Em; [|done].
    apply maximum_spec in Em as [Hin _]. apply Hsame in Hin. by apply elem_of_nil in Hin.
  - destruct (py_max_spec y rest) as [Hin Hub].
    assert (Hmax : maximum (filter (fun y => min_year <= y) (remove_dups ys))
                   = Some (py_max y rest)).
    { apply maximum_spec. split; [by apply Hsame|].
      intros z Hz. by apply Hub, Hsame. }
    by rewrite Hmax.
Qed.

(** What [latest_of] returns. *)
Lemma latest_of_None ws min_year :
  latest_of ws min_year = None <-> forall w, w ∈ ws -> year_value w < min_year.
Proof.
  unfold latest_of. rewrite fmap_None, maximum_None. split.
  - intros Hnil w Hw.
    destruct (Z.lt_ge_cases (year_value w) min_year) as [|Hge]; [done|].
    assert (Hin : year_value w ∈ filter (fun y => min_year <= y) (remove_dups (year_value <$> ws))).
    { apply list_elem_of_filter. split; [done|].
      apply elem_of_remove_dups, list_elem_of_fmap. eauto. }
    rewrite Hnil in Hin. by apply elem_of_nil in Hin.
  - intros Hall. destruct (filter _ _) as [|y l] eqn:E; [done|].
    assert (Hin : y ∈ filter (fun y => min_year <= y) (remove_dups (year_value <$> ws)))
      by (rewrite E; apply list_elem_of_here).
    apply list_elem_of_filter in Hin as [Hge Hin].
    apply elem_of_remove_dups, list_elem_of_fmap in Hin as (w & -> & Hw).
    specialize (Hall w Hw). lia.
Qed.

Lemma latest_of_Some ws min_year s :
  latest_of ws min_year = Some s <->
  exists w, w ∈ ws /\ s = py_str (year_value w) /\ min_year <= year_value w /\
    forall w', w' ∈ ws -> year_value w' <= year_value w.
Proof.
  unfold latest_of. rewrite fmap_Some. split.
  - intros (m & (Hin & Hub)%maximum_spec & ->).
    apply list_elem_of_filter in Hin as [Hge Hin].
    apply elem_of_remove_dups, list_elem_of_fmap in Hin as (w & -> & Hw).
    exists w. repeat split; try done.
    intros w' Hw'.
    destruct (Z.lt_ge_cases (year_value w') min_year) as [|Hge']; [lia|].
    apply Hub, list_elem_of_filter. split; [done|].
    apply elem_of_remove_dups, list_elem_of_fmap. eauto.
  - intros (w & Hw & -> & Hge & Hub). exists (year_value w). split; [|done].
    apply maximum_spec. split.
    + apply list_elem_of_filter. split; [done|].
      apply elem_of_remove_dups, list_elem_of_fmap. eauto.
    + intros y [_ Hy]%list_elem_of_filter.
      apply elem_of_remove_dups, list_elem_of_fmap in Hy as (w' & -> & Hw'). auto.
Qed.

(** ** Substrings *)

Lemma starts_with_app w post : starts_with w (w ++ post) = true.
Proof. induction w as [|a w IH]; simpl; [done|]. by rewrite Z.eqb_refl. Qed.

Lemma occurs_app pre w post : occurs w (pre ++ w ++ post) = true.
Proof.
  induction pre as [|a pre IH].
  - simpl. destruct (w ++ post) eqn:E.
    + destruct w; [done|discriminate].
    + simpl. rewrite <- E, starts_with_app. done.
  - simpl. rewrite IH. apply orb_true_r.
Qed.

(** ** [extract_latest_year] *)

(** C1 (counterexample): in [202049] the year 2049 is a substring that
    matches the pattern, but the scan consumes [2020] and never tries the
    pattern at the third character: the code answers 2020, the maximum
    over all matching substrings is 2049.  And in [201] followed by the
    Arabic-Indic digit three (U+0663) no substring ends in a digit 0-9,
    yet the code answers 2013. *)
Lemma extract_latest_year_skips_overlap :
  extract_latest_year (py "202049") 2010 = Ok (Some (py "2020")) /\
  spec_latest_year (py "202049") 2010 = Some (py "2049") /\
  extract_latest_year (py "202049") 2010 <> Ok (spec_latest_year (py "202049") 2010) /\
  extract_latest_year [0x32; 0x30; 0x31; 0x663] 2010 = Ok (Some (py "2013")) /\
  spec_latest_year [0x32; 0x30; 0x31; 0x663] 2010 = None.
Proof.
  split; [by vm_compute|]. split; [by vm_compute|].
  split; [vm_compute; congruence|]. split; by vm_compute.
Qed.

(** C8 (as amended): [extract_latest_year] returns [None] or the decimal
    string of a year [y], [min_year <= y], 2000 <= y <= 2049, which is the
    value of a four-character substring of [content] made of [2], [0], a
    digit 0-4 and a Unicode decimal digit; when that last character is an
    ASCII digit the substring is the returned string itself. *)
Theorem extract_latest_year_from_content content min_year :
  extract_latest_year content min_year = Ok None \/
  exists a b c d,
    extract_latest_year content min_year = Ok (Some (py_str (year_value [a; b; c; d]))) /\
    min_year <= year_value [a; b; c; d] /\
    2000 <= year_value [a; b; c; d] <= 2049 /\
    year_match a b c d = true /\
    occurs [a; b; c; d] content = true /\
    (ascii_digit d = true ->
     py_str (year_value [a; b; c; d]) = [a; b; c; d] /\
     occurs (py_str (year_value [a; b; c; d])) content = true).
Proof.
  rewrite extract_latest_year_eq.
  destruct (latest_of (re_findall_year content) min_year) as [s|] eqn:E; [right|by left].
  apply latest_of_Some in E as (w & Hw & -> & Hge & _).
  apply re_findall_year_sound in Hw as (pre & a & b & c & d & post & -> & -> & Hm).
  exists a, b, c, d. repeat split; try done.
  - by apply year_match_range.
  - by apply year_match_range.
  - apply occurs_app.
  - by apply year_match_numeral.
  - rewrite year_match_numeral by done. apply occurs_app.
Qed.

(** C8 (counterexample): the content is [201] followed by the
    Arabic-Indic digit three (U+0663), which [\d] matches and [int]
    reads as 3: the code returns [2013], which is no substring of the
    content. *)
Lemma extract_latest_year_foreign_digit :
  extract_latest_year [0x32; 0x30; 0x31; 0x663] 2010 = Ok (Some (py "2013")) /\
  occurs (py "2013") [0x32; 0x30; 0x31; 0x663] = false.
Proof. split; by vm_compute. Qed.

(** The examples of the specification. *)
Example extract_latest_year_2024 :
  extract_latest_year (py "...2024 and 2019...") 2020 = Ok (Some (py "2024")).
Proof. by vm_compute. Qed.

Example extract_latest_year_sentinel :
  extract_latest_year (py "...2024 and 2019...") 2025 = Ok None.
Proof. by vm_compute. Qed.

(** ** [hash_page] *)

Lemma hex_digit_is_hex d : is_hex (hex_digit d) = true.
Proof.
  unfold hex_digit. generalize (Z.to_nat d). intros n.
  do 16 (destruct n as [|n]; [reflexivity|]). by destruct n.
Qed.

Lemma hex_is_hex bytes : Forall (fun c => is_hex c = true) (hex bytes).
Proof.
  unfold hex. induction bytes as [|b bytes IH]; simpl; [constructor|].
  repeat constructor; try apply hex_digit_is_hex. done.
Qed.

Lemma hex_length bytes : length (hex bytes) = (2 * length bytes)%nat.
Proof. unfold hex. induction bytes as [|b bytes IH]; simpl; lia. Qed.


Lemma digest_length msg : length (SHA256.digest msg) = 32%nat.
Proof.
  unfold SHA256.digest. cbv zeta.
  match goal with |- context [SHA256.blocks ?n ?p ?h0] => generalize (SHA256.blocks n p h0) end.
  by intros h.
Qed.

Lemma digest_bytes msg : Forall (fun b => 0 <= b < 256) (SHA256.digest msg).
Proof.
  unfold SHA256.digest. cbv zeta.
  match goal with |- context [SHA256.blocks ?n ?p ?h0] => generalize (SHA256.blocks n p h0) end.
  intros h.
  assert (Hb : forall x i, 0 <= Z.land (Z.shiftr x i) 0xff < 256).
  { intros x i. change 0xff with (Z.ones 8).
    rewrite Z.land_ones by lia. apply Z.mod_pos_bound. lia. }
  simpl. repeat constructor; apply Hb.
Qed.

Lemma utf8_from_ok pos s :
  has_surrogate s = false -> exists data, utf8_from pos s = Ok data.
Proof.
  revert pos. induction s as [|c s IH]; intros pos Hs; simpl in *; [by eexists|].
  apply orb_false_elim in Hs as [-> Hs].
  destruct (IH (pos + 1) Hs) as [data ->]. by eexists.
Qed.

Lemma utf8_from_raise pos s :
  has_surrogate s = true ->
  exists e, utf8_from pos s = Raise e /\ exn_class e = "UnicodeEncodeError"%string.
Proof.
  revert pos. induction s as [|c s IH]; intros pos Hs; simpl in *; [discriminate|].
  destruct (is_surrogate c); [by eexists|].
  destruct (IH (pos + 1) Hs) as (e & -> & He). by exists e.
Qed.

Lemma hash_page_ok content :
  has_surrogate content = false ->
  exists h, hash_page content = Ok h /\ length h = 10%nat /\
    Forall (fun c => is_hex c = true) h.
Proof.
  intros Hs. unfold hash_page, encode_utf8.
  destruct (utf8_from_ok 0 content Hs) as [data ->].
  eexists. split; [reflexivity|]. split.
  - rewrite length_take. unfold sha256_hexdigest. rewrite hex_length, digest_length. done.
  - apply Forall_take, hex_is_hex.
Qed.

Lemma hash_page_raise content :
  has_surrogate content = true ->
  exists e, hash_page content = Raise e /\ exn_class e = "UnicodeEncodeError"%string.
Proof.
  intros Hs. unfold hash_page, encode_utf8.
  destruct (utf8_from_raise 0 content Hs) as (e & -> & He). by exists e.
Qed.


(** The digests of the FIPS 180-4 examples and of a page. *)
Example sha256_empty :
  sha256_hexdigest []
  = py "e3b0c44298fc1c149afbf4c8996fb92427ae41e4649b934ca495991b7852b855".
Proof. by vm_compute. Qed.

Example sha256_abc :
  sha256_hexdigest (py "abc")
  = py "ba7816bf8f01cfea414140de5dae2223b00361a396177a9cb410ff61f20015ad".
Proof. by vm_compute. Qed.

Example sha256_two_blocks :
  sha256_hexdigest (py "abcdbcdecdefdefgefghfghighijhijkijkljklmklmnlmnomnopnopq")
  = py "248d6a61d20638b8e5c026930c3e6039a33ce45964ff2167f6ecedd419db06c1".
Proof. by vm_compute. Qed.

Example hash_page_no_heading : hash_page (py "<p>no heading</p>") = Ok (py "4f9ef5d87b").
Proof. by vm_compute. Qed.

Example hash_page_non_ascii : hash_page [0xe9; 0x20ac; 0x10000] = Ok (py "9b0269583a").
Proof. by vm_compute. Qed.

(** ** Whitespace: [strip], [split], [join] and [collapse] *)

Lemma blank_app a b : blank (a ++ b) = blank a && blank b.
Proof. apply forallb_app. Qed.

Lemma blank_rev a : blank (rev a) = blank a.
Proof.
  induction a as [|c a IH]; [done|]. simpl. rewrite blank_app, IH. simpl.
  rewrite andb_true_r. apply andb_comm.
Qed.

(** What [lstrip] removes is whitespace, what it leaves starts with none. *)
Lemma lstrip_split s : exists a, blank a = true /\ s = a ++ lstrip s.
Proof.
  induction s as [|c s (a & Ha & IH)]; [by exists []|]. simpl.
  destruct (isspace c) eqn:Ec.
  - exists (c :: a). simpl. rewrite Ec, Ha. split; [done|]. by rewrite <- IH.
  - by exists [].
Qed.

Lemma lstrip_blank s : blank s = true -> lstrip s = [].
Proof.
  induction s as [|c s IH]; [done|]. simpl. intros [-> Hs]%andb_prop. auto.
Qed.

Lemma strip_split s :
  exists a b, blank a = true /\ blank b = true /\ s = a ++ strip s ++ b.
Proof.
  destruct (lstrip_split s) as (a & Ha & Es).
  destruct (lstrip_split (rev (lstrip s))) as (b & Hb & Er).
  exists a, (rev b). rewrite blank_rev. repeat split; try done.
  unfold strip. rewrite <- rev_app_distr, <- Er, rev_involutive. done.
Qed.

Lemma strip_blank s : blank s = true -> strip s = [].
Proof. intros Hs. unfold strip. by rewrite (lstrip_blank s). Qed.

Lemma blank_strip s : blank (strip s) = blank s.
Proof.
  destruct (strip_split s) as (a & b & Ha & Hb & Es).
  rewrite Es at 2. rewrite !blank_app, Ha, Hb. by rewrite andb_true_r.
Qed.

Lemma truthy_strip s : truthy (strip s) = negb (blank s).
Proof.
  rewrite <- blank_strip. destruct (strip s) as [|c t] eqn:E; [done|].
  simpl. destruct (isspace c) eqn:Ec; [|done]. exfalso.
  (* a stripped string does not start with whitespace *)
  unfold strip in E.
  destruct (lstrip_split s) as (a & Ha & Es).
  assert (Hhead : forall u, match lstrip u with x :: _ => isspace x = false | [] => True end).
  { induction u as [|x u IHu]; simpl; [done|]. destruct (isspace x) eqn:Ex; [done|]. by simpl. }
  (* the first character of [strip s] is the first of [lstrip s] *)
  pose proof (Hhead s) as H1.
  destruct (lstrip_split (rev (lstrip s))) as (b & Hb & Er).
  assert (Hl : lstrip s = (c :: t) ++ rev b).
  { rewrite <- E, <- rev_app_distr, <- Er, rev_involutive. done. }
  rewrite Hl in H1. simpl in H1. congruence.
Qed.

Lemma collapse_from_nil started pending s :
  collapse_from started pending s = [] <-> blank s = true.
Proof.
  revert started pending. induction s as [|c s IH]; intros started pending; simpl; [done|].
  destruct (isspace c); simpl; [apply IH|]. split; [|done]. by destruct pending.
Qed.

Lemma collapse_nil s : collapse s = [] <-> blank s = true.
Proof. apply collapse_from_nil. Qed.

Lemma split_from_cons_nonempty c word s : split_from (c :: word) s <> [].
Proof.
  revert c word. induction s as [|x s IH]; intros c word; simpl.
  - done.
  - destruct (isspace x); [done|apply IH].
Qed.

Lemma join_cons sep p ps :
  join sep (p :: ps) = match ps with [] => p | _ => p ++ sep ++ join sep ps end.
Proof. by destruct ps. Qed.

(** [" ".join(s.split())] is the collapsed string of the specification. *)
Lemma join_split_from s :
  (forall c word, join [0x20] (split_from (c :: word) s)
     = rev (c :: word) ++ collapse_from true false s) /\
  collapse_from true true s
    = match split_from [] s with [] => [] | ws => [0x20] ++ join [0x20] ws end /\
  collapse_from false false s = join [0x20] (split_from [] s).
Proof.
  induction s as [|x s (IHa & IHb & IHc)].
  - repeat split; try done. intros c word. simpl. by rewrite app_nil_r.
  - cbn [split_from collapse_from]. destruct (isspace x) eqn:Ex.
    + repeat split; try done. intros c word.
      rewrite join_cons, IHb. destruct (split_from [] s); [by rewrite app_nil_r|done].
    + repeat split.
      * intros c word. rewrite IHa. cbn [rev]. by rewrite <- !app_assoc.
      * pose proof (IHa x []) as Hj.
        pose proof (split_from_cons_nonempty x [] s) as Hne.
        destruct (split_from [x] s) as [|w ws]; [done|]. by rewrite Hj.
      * by rewrite IHa.
Qed.

Lemma join_split_collapse s : join (py " ") (split s) = collapse s.
Proof. symmetry. apply join_split_from. Qed.

Lemma split_from_blank_l a s :
  blank a = true -> split_from [] (a ++ s) = split_from [] s.
Proof. induction a as [|c a IH]; [done|]. simpl. intros [-> Ha]%andb_prop. auto. Qed.

Lemma split_from_blank a : blank a = true -> split_from [] a = [].
Proof. induction a as [|c a IH]; [done|]. simpl. intros [-> Ha]%andb_prop. auto. Qed.

Lemma split_from_blank_r a word s :
  blank a = true -> split_from word (s ++ a) = split_from word s.
Proof.
  intros Ha. revert word. induction s as [|c s IH]; intros word; simpl.
  - destruct a as [|x a]; [done|]. simpl in *. apply andb_prop in Ha as [-> Ha].
    rewrite split_from_blank by done. by destruct word.
  - rewrite !IH. done.
Qed.

Lemma split_strip s : split (strip s) = split s.
Proof.
  destruct (strip_split s) as (a & b & Ha & Hb & Es). unfold split.
  rewrite Es at 2. rewrite split_from_blank_l, split_from_blank_r; done.
Qed.

(** ** The text of a heading *)

(** The strings [get_text(strip=True)] keeps are the ones with a character
    that is not whitespace. *)
Lemma stripped_strings (strings : list pystr) :
  List.filter truthy (map strip strings)
  = map strip (List.filter (fun s => negb (blank s)) strings).
Proof.
  induction strings as [|s strings IH]; [done|]. simpl.
  rewrite truthy_strip. destruct (blank s); simpl; by rewrite IH.
Qed.

Lemma blank_concat (strings : list pystr) :
  blank (concat strings) = forallb blank strings.
Proof.
  induction strings as [|s strings IH]; [done|]. simpl. by rewrite blank_app, IH.
Qed.

Lemma blank_stripped (strings : list pystr) :
  blank (concat (List.filter truthy (map strip strings))) = forallb blank strings.
Proof.
  induction strings as [|s strings IH]; [done|]. simpl.
  rewrite truthy_strip. destruct (blank s) eqn:Es; simpl; [done|].
  by rewrite blank_app, blank_strip, Es.
Qed.

(** The stripped text and the text content are empty together. *)
Lemma get_text_strip_blank h1 : blank (get_text_strip h1) = blank (get_text h1).
Proof. unfold get_text_strip, get_text. by rewrite blank_stripped, blank_concat. Qed.

(** With at most one string that is not blank, stripping the strings one
    by one loses no word boundary. *)
Lemma split_single_string (strings : list pystr) :
  (length (List.filter (fun s => negb (blank s)) strings) <= 1)%nat ->
  split (concat (List.filter truthy (map strip strings))) = split (concat strings).
Proof.
  rewrite stripped_strings. unfold split.
  induction strings as [|s strings IH]; [done|]. simpl.
  destruct (blank s) eqn:Es; simpl.
  - intros Hl. rewrite split_from_blank_l by done. auto.
  - intros Hl.
    destruct (List.filter _ strings) as [|? ?] eqn:Ef; [|simpl in Hl; lia].
    simpl. rewrite app_nil_r.
    assert (Hrest : blank (concat strings) = true).
    { rewrite blank_concat. apply forallb_forall. intros u Hu.
      destruct (blank u) eqn:Eu; [done|].
      assert (Hin : In u (List.filter (fun s => negb (blank s)) strings))
        by (apply filter_In; by rewrite Eu).
      by rewrite Ef in Hin. }
    rewrite split_from_blank_r by done. apply split_strip.
Qed.

(** ** The version of a source *)

Section VersionProperties.
Context {env : Env}.

Lemma fetch_html_world u w : snd (fetch_html u w) = after_request u w.
Proof. done. Qed.

(** The extraction that follows a successful fetch, mode by mode. *)
Lemma get_version_for_source_fetched src w html w' :
  fetch_html (url src) w = (Ok html, w') ->
  get_version_for_source src w =
  (let m := default (py "hash") (mode src) in
   if bool_decide (m = py "latest_year") then
     year ← extract_latest_year html (default 2010 (min_year src));
     or_else year (Ok (py "unknown-year"))
   else if bool_decide (m = py "kaufman_title") then
     label ← extract_kaufman_title html;
     or_else label (hash_page html)
   else hash_page html, w').
Proof.
  intros Hf. unfold get_version_for_source.
  unfold mbind at 1, M_bind at 1. rewrite Hf. cbv zeta.
  repeat case_bool_decide; unfold mbind, M_bind, result_bind, lift; try done.
  - by destruct (extract_latest_year _ _).
  - by destruct (extract_kaufman_title _).
Qed.

Lemma get_version_for_source_failed src w e w' :
  fetch_html (url src) w = (Raise e, w') ->
  get_version_for_source src w = (Raise e, w').
Proof.
  intros Hf. unfold get_version_for_source.
  unfold mbind at 1, M_bind at 1. by rewrite Hf.
Qed.

(** The outcome of a source depends on the world through the number of
    requests made before, and the world only gains the request. *)
Lemma get_version_for_source_outcome src w :
  get_version_for_source src w
  = (outcome_at (length (requested w)) src, after_request (url src) w).
Proof.
  unfold outcome_at.
  set (w0 := World (replicate (length (requested w)) []) [] [] []).
  assert (Hout : fst (fetch_html (url src) w) = fst (fetch_html (url src) w0)).
  { unfold fetch_html, w0. simpl. by rewrite length_replicate. }
  destruct (fetch_html (url src) w) as [r w1] eqn:E.
  destruct (fetch_html (url src) w0) as [r0 w2] eqn:E0.
  simpl in Hout. subst r0.
  assert (w1 = after_request (url src) w) as ->.
  { by rewrite <- (fetch_html_world (url src) w), E. }
  destruct r as [html|e].
  - by rewrite (get_version_for_source_fetched _ _ _ _ E),
               (get_version_for_source_fetched _ _ _ _ E0).
  - by rewrite (get_version_for_source_failed _ _ _ _ E),
               (get_version_for_source_failed _ _ _ _ E0).
Qed.

(** *** The title strategy *)

(** [extract_kaufman_title] returns [None] rather than an empty title. *)
Lemma extract_kaufman_title_truthy html t :
  extract_kaufman_title html = Ok (Some t) -> truthy t = true.
Proof.
  unfold extract_kaufman_title. destruct (BeautifulSoup html) as [soup|e]; [|done].
  change (Ok soup ≫= ?f) with (f soup). cbv beta.
  destruct (find soup (py "h1")) as [h1|]; [|done].
  cbv zeta. destruct (truthy (join _ _)) eqn:Et; [|done]. by intros [= <-].
Qed.

Lemma extract_kaufman_title_heading html soup h1 :
  BeautifulSoup html = Ok soup -> find soup (py "h1") = Some h1 ->
  extract_kaufman_title html
  = Ok (if truthy (collapse (get_text_strip h1))
        then Some (collapse (get_text_strip h1)) else None).
Proof.
  intros Hs Hf. unfold extract_kaufman_title. rewrite Hs.
  change (Ok soup ≫= ?f) with (f soup). cbv beta. rewrite Hf. cbv zeta.
  by rewrite join_split_collapse.
Qed.

Lemma truthy_collapse s : truthy (collapse s) = negb (blank s).
Proof.
  destruct (blank s) eqn:Eb.
  - apply collapse_nil in Eb. by rewrite Eb.
  - destruct (collapse s) eqn:Ec; [|done]. apply collapse_nil in Ec. congruence.
Qed.

Lemma extract_kaufman_title_no_text html soup :
  BeautifulSoup html = Ok soup ->
  (find soup (py "h1") = None \/
   exists h1, find soup (py "h1") = Some h1 /\ collapse (get_text h1) = []) ->
  extract_kaufman_title html = Ok None.
Proof.
  intros Hs [Hf|(h1 & Hf & Hc)].
  - unfold extract_kaufman_title. rewrite Hs.
    change (Ok soup ≫= ?f) with (f soup). cbv beta. by rewrite Hf.
  - rewrite (extract_kaufman_title_heading _ _ _ Hs Hf).
    apply collapse_nil in Hc.
    by rewrite truthy_collapse, get_text_strip_blank, Hc.
Qed.

(** C4 (as amended): when the first [<h1>] of the parsed content holds at
    most one string with a character that is not whitespace,
    [extract_kaufman_title] returns the text content of that heading with
    every run of whitespace collapsed to one space and the ends trimmed,
    and [None] when that text is empty. *)
Theorem extract_kaufman_title_collapsed html soup h1 :
  BeautifulSoup html = Ok soup ->
  find soup (py "h1") = Some h1 ->
  (length (List.filter (fun s => negb (blank s)) (text_strings h1)) <= 1)%nat ->
  extract_kaufman_title html
  = Ok (if truthy (collapse (get_text h1)) then Some (collapse (get_text h1)) else None).
Proof.
  intros Hs Hf Hone. rewrite (extract_kaufman_title_heading _ _ _ Hs Hf).
  rewrite <- !join_split_collapse. unfold get_text_strip, get_text.
  by rewrite split_single_string.
Qed.

(** C5 (as amended): when the parsed content has no [<h1>], or the
    collapsed text of its first [<h1>] is empty, the title strategy of
    [get_version_for_source] ends as [hash_page(content)] ends: with the
    ten hexadecimal characters of the hash when the content has no lone
    surrogate, with the [UnicodeEncodeError] of the encoder when it has
    one; never with an empty or sentinel value. *)
Theorem kaufman_title_falls_back src w html w' soup :
  mode src = Some (py "kaufman_title") ->
  fetch_html (url src) w = (Ok html, w') ->
  BeautifulSoup html = Ok soup ->
  (find soup (py "h1") = None \/
   exists h1, find soup (py "h1") = Some h1 /\ collapse (get_text h1) = []) ->
  get_version_for_source src w = (hash_page html, w') /\
  (has_surrogate html = false ->
   exists h, hash_page html = Ok h /\ length h = 10%nat /\
     Forall (fun c => is_hex c = true) h) /\
  (has_surrogate html = true ->
   exists e, hash_page html = Raise e /\ exn_class e = "UnicodeEncodeError"%string).
Proof.
  intros Hm Hf Hs Hh1. split; [|split; [apply hash_page_ok|apply hash_page_raise]].
  rewrite (get_version_for_source_fetched _ _ _ _ Hf), Hm. simpl default. cbv zeta.
  rewrite bool_decide_eq_false_2 by (by vm_compute).
  rewrite bool_decide_eq_true_2 by done.
  by rewrite (extract_kaufman_title_no_text _ _ Hs Hh1).
Qed.

(** *** Unrecognized modes *)

(** C6 (as amended): with a mode that is none of [latest_year],
    [kaufman_title] and [hash], [get_version_for_source] ends as
    [hash_page(content)] ends: it returns the ten hexadecimal characters
    of the hash when the content has no lone surrogate, and raises the
    [UnicodeEncodeError] of the encoder when it has one. *)
Theorem unrecognized_mode_hashes src w html w' m :
  mode src = Some m ->
  m <> py "latest_year" -> m <> py "kaufman_title" -> m <> py "hash" ->
  fetch_html (url src) w = (Ok html, w') ->
  get_version_for_source src w = (hash_page html, w') /\
  (has_surrogate html = false ->
   exists h, hash_page html = Ok h /\ length h = 10%nat /\
     Forall (fun c => is_hex c = true) h) /\
  (has_surrogate html = true ->
   exists e, hash_page html = Raise e /\ exn_class e = "UnicodeEncodeError"%string).
Proof.
  intros Hm H1 H2 H3 Hf. split; [|split; [apply hash_page_ok|apply hash_page_raise]].
  rewrite (get_version_for_source_fetched _ _ _ _ Hf), Hm. simpl default. cbv zeta.
  by rewrite !bool_decide_eq_false_2.
Qed.

(** *** The shape of a version marker *)

Lemma latest_of_findall_year html min s :
  latest_of (re_findall_year html) min = Some s ->
  exists y, 2000 <= y <= 2049 /\ s = py_str y /\ length s = 4%nat.
Proof.
  intros (m & Hin & -> & _)%latest_of_Some.
  apply re_findall_year_sound in Hin as (_ & a & b & c & d & _ & _ & -> & Hm).
  pose proof (year_match_range _ _ _ _ Hm) as Hr.
  exists (year_value [a; b; c; d]). split; [done|]. split; [done|].
  by apply py_str_year_length.
Qed.

Lemma hash_page_shape html h :
  hash_page html = Ok h -> length h = 10%nat /\ Forall (fun c => is_hex c = true) h.
Proof.
  intros Hh. destruct (has_surrogate html) eqn:Es.
  - destruct (hash_page_raise _ Es) as (e & He & _). congruence.
  - destruct (hash_page_ok _ Es) as (h' & He & Hl & Hx). by assert (h' = h) as -> by congruence.
Qed.

(** C9: a version marker returned by [get_version_for_source] is never
    empty: with mode [latest_year] it is a year of four digits or
    [unknown-year]; with mode [kaufman_title] it is the title, which
    [extract_kaufman_title] never returns empty, or the hash of ten
    characters; with any other mode it is the hash of ten characters. *)
Theorem version_marker_nonempty src w v w' :
  get_version_for_source src w = (Ok v, w') ->
  v <> [] /\
  exists html, fetch_html (url src) w = (Ok html, w') /\
    let m := default (py "hash") (mode src) in
    (m = py "latest_year" /\
       (v = py "unknown-year" \/
        exists y, 2000 <= y <= 2049 /\ v = py_str y /\ length v = 4%nat)) \/
    (m = py "kaufman_title" /\
       (extract_kaufman_title html = Ok (Some v) \/
        extract_kaufman_title html = Ok None /\ hash_page html = Ok v /\
        length v = 10%nat /\ Forall (fun c => is_hex c = true) v)) \/
    (m <> py "latest_year" /\ m <> py "kaufman_title" /\
       hash_page html = Ok v /\
       length v = 10%nat /\ Forall (fun c => is_hex c = true) v).
Proof.
  intros Hv.
  destruct (fetch_html (url src) w) as [[html|e] w1] eqn:Hf.
  2: { rewrite (get_version_for_source_failed _ _ _ _ Hf) in Hv. congruence. }
  rewrite (get_version_for_source_fetched _ _ _ _ Hf) in Hv. cbv zeta in Hv.
  assert (Hshape : forall P : Prop, (v <> [] -> P) -> (length v = 4%nat \/ length v = 10%nat \/ v = py "unknown-year" \/ truthy v = true) -> v <> [] /\ P).
  { intros P HP Hl. assert (v <> []); [|by split; auto].
    intros ->. destruct Hl as [?|[?|[?|?]]]; done. }
  repeat case_bool_decide.
  - rewrite extract_latest_year_eq in Hv. change (Ok ?x ≫= ?f) with (f x) in Hv.
    cbv beta in Hv.
    destruct (latest_of _ _) as [s|] eqn:El; simpl in Hv.
    + destruct (latest_of_findall_year _ _ _ El) as (y & Hy & -> & Hl).
      assert (truthy (py_str y) = true) as Ht by (by destruct (py_str y)).
      rewrite Ht in Hv. injection Hv as <- <-.
      apply Hshape; [|by left]. intros _. exists html. split; [done|]. left. split; [done|].
      right. by exists y.
    + injection Hv as <- <-.
      apply Hshape; [|by right; right; left]. intros _. exists html. split; [done|].
      left. split; [done|]. by left.
  - destruct (extract_kaufman_title html) as [[t|]|e] eqn:Ek;
      change (Ok ?x ≫= ?f) with (f x) in Hv; cbv beta in Hv; simpl in Hv.
    + rewrite (extract_kaufman_title_truthy _ _ Ek) in Hv. injection Hv as <- <-.
      apply Hshape; [|right; right; right; by eapply extract_kaufman_title_truthy].
      intros _. exists html. split; [done|]. right. left. split; [done|]. by left.
    + assert (hash_page html = Ok v /\ w1 = w') as [Hh <-] by (split; congruence).
      destruct (hash_page_shape _ _ Hh) as [Hl Hx].
      apply Hshape; [|by right; left]. intros _. exists html. split; [done|].
      right. left. split; [done|]. by right.
    + discriminate.
  - assert (hash_page html = Ok v /\ w1 = w') as [Hh <-] by (split; congruence).
    destruct (hash_page_shape _ _ Hh) as [Hl Hx].
    apply Hshape; [|by right; left]. intros _. exists html. split; [done|].
    right. right. done.
Qed.

(** The year strategy after a fetch. *)
Lemma get_version_latest_year src w html w' :
  mode src = Some (py "latest_year") ->
  fetch_html (url src) w = (Ok html, w') ->
  get_version_for_source src w
  = (Ok (default (py "unknown-year")
           (latest_of (re_findall_year html) (default 2010 (min_year src)))), w').
Proof.
  intros Hm Hf. rewrite (get_version_for_source_fetched _ _ html w') by done.
  rewrite Hm. simpl default at 1. cbv zeta.
  rewrite bool_decide_eq_true_2 by done.
  rewrite extract_latest_year_eq. change (Ok ?x ≫= ?f) with (f x). cbv beta.
  destruct (latest_of _ _) as [s|] eqn:El; simpl; [|done].
  destruct (latest_of_findall_year _ _ _ El) as (y & Hy & -> & Hl).
  by destruct (py_str y).
Qed.

(** C1 (as amended): [extract_latest_year(content, floor)] is the decimal
    string of the maximum of the deduplicated integers, not below
    [floor], of the matches of [20[0-4]\d] that a scan from left to right
    reports, each match consuming its four characters (so that a match
    starting inside a reported one is not a match of the scan) and [\d]
    standing for any Unicode decimal digit; it is [None] when no such
    integer survives the filter, which [get_version_for_source] turns into
    [unknown-year].  The scan has exactly one result. *)
Theorem extract_latest_year_of_scan content floor :
  exists ms, scan content ms /\ (forall ms', scan content ms' -> ms' = ms) /\
    extract_latest_year content floor = Ok (latest_of ms floor) /\
    (forall src w w',
       mode src = Some (py "latest_year") ->
       default 2010 (min_year src) = floor ->
       fetch_html (url src) w = (Ok content, w') ->
       get_version_for_source src w
       = (Ok (default (py "unknown-year") (latest_of ms floor)), w')).
Proof.
  exists (re_findall_year content). split; [apply re_findall_year_scan|]. split.
  - apply scan_functional.
  - split; [apply extract_latest_year_eq|].
    intros src w w' Hm <- Hf. by apply get_version_latest_year.
Qed.

(** C10: a [latest_year] source without [min_year] is treated exactly as
    the same source with [min_year] 2010, the floor also being the default
    argument of [extract_latest_year]: after a fetch the version is the
    latest year of the scan not below 2010, or [unknown-year]. *)
Theorem min_year_defaults_to_2010 i n u w :
  get_version_for_source (Source i n u (Some (py "latest_year")) None) w
  = get_version_for_source (Source i n u (Some (py "latest_year")) (Some 2010)) w /\
  (forall html, extract_latest_year_default html = extract_latest_year html 2010) /\
  (forall html w', fetch_html u w = (Ok html, w') ->
     get_version_for_source (Source i n u (Some (py "latest_year")) None) w
     = (Ok (default (py "unknown-year") (latest_of (re_findall_year html) 2010)), w')).
Proof.
  split; [done|]. split; [done|]. intros html w' Hf.
  by rewrite (get_version_latest_year _ _ html w').
Qed.

End VersionProperties.

(** ** The run *)

Section RunProperties.
Context {env : Env}.









End RunProperties.

(** ** The theorems at concrete pages *)

(** C4 (witness): the example of the specification, a heading in one
    string. *)
Lemma extract_kaufman_title_collapsed_example :
  let env := PlainMarkup.serves report_page in
  let h1 := Tag (py "h1") [Str NavigableString (py "  Report   Title" ++ nl ++ py "2025 ")] in
  BeautifulSoup report_page = Ok (Tag (py "[document]") [h1]) /\
  find (Tag (py "[document]") [h1]) (py "h1") = Some h1 /\
  (length (List.filter (fun s => negb (blank s)) (text_strings h1)) <= 1)%nat /\
  extract_kaufman_title report_page = Ok (Some (py "Report Title 2025")).
Proof.
  intros env h1.
  assert (Hs : BeautifulSoup report_page = Ok (Tag (py "[document]") [h1])) by reflexivity.
  assert (Hf : find (Tag (py "[document]") [h1]) (py "h1") = Some h1) by reflexivity.
  assert (Hl : (length (List.filter (fun s => negb (blank s)) (text_strings h1)) <= 1)%nat)
    by (vm_compute; lia).
  split; [exact Hs|]. split; [exact Hf|]. split; [exact Hl|].
  exact (extract_kaufman_title_collapsed report_page _ h1 Hs Hf Hl).
Defined.

(** C4 (counterexample): the strings of [<h1>Report <b>Title</b></h1>] are
    stripped one by one and joined without separator, so the space between
    the two words is lost; and for a heading without text the result is
    [None], not the empty text. *)
Lemma extract_kaufman_title_glues_strings :
  @BeautifulSoup (PlainMarkup.serves inline_page) inline_page
    = Ok (Tag (py "[document]") [inline_heading]) /\
  find (Tag (py "[document]") [inline_heading]) (py "h1") = Some inline_heading /\
  collapse (get_text inline_heading) = py "Report Title" /\
  @extract_kaufman_title (PlainMarkup.serves inline_page) inline_page
    = Ok (Some (py "ReportTitle")) /\
  @BeautifulSoup (PlainMarkup.serves empty_heading_page) empty_heading_page
    = Ok (Tag (py "[document]") [Tag (py "h1") []]) /\
  collapse (get_text (Tag (py "h1") [])) = [] /\
  @extract_kaufman_title (PlainMarkup.serves empty_heading_page) empty_heading_page
    = Ok None.
Proof. repeat split; by vm_compute. Qed.

(** C5 (witness): the page without heading of the specification. *)
Lemma kaufman_title_falls_back_example :
  let env := PlainMarkup.serves plain_page in
  let soup := Tag (py "[document]") [Tag (py "p") [Str NavigableString (py "no heading")]] in
  mode kaufman_flash = Some (py "kaufman_title") /\
  fetch_html (url kaufman_flash) empty_world
    = (Ok plain_page, after_request (url kaufman_flash) empty_world) /\
  BeautifulSoup plain_page = Ok soup /\
  find soup (py "h1") = None /\
  get_version_for_source kaufman_flash empty_world
    = (Ok (py "4f9ef5d87b"), after_request (url kaufman_flash) empty_world).
Proof.
  intros env soup.
  assert (Hm : mode kaufman_flash = Some (py "kaufman_title")) by reflexivity.
  assert (Hf : fetch_html (url kaufman_flash) empty_world
               = (Ok plain_page, after_request (url kaufman_flash) empty_world))
    by reflexivity.
  assert (Hs : BeautifulSoup plain_page = Ok soup) by reflexivity.
  assert (Hn : find soup (py "h1") = None) by reflexivity.
  split; [exact Hm|]. split; [exact Hf|]. split; [exact Hs|]. split; [exact Hn|].
  rewrite (proj1 (kaufman_title_falls_back kaufman_flash empty_world plain_page _ soup
                    Hm Hf Hs (or_introl Hn))).
  by vm_compute.
Defined.

(** C5 (counterexample): a page without heading whose text holds a lone
    surrogate: the title strategy falls back to [hash_page], whose encoder
    raises. *)
Lemma kaufman_title_fallback_raises :
  @BeautifulSoup (PlainMarkup.serves broken_page) broken_page
    = Ok (Tag (py "[document]")
            [Tag (py "p") [Str NavigableString (py "no heading " ++ [0xd83d])]]) /\
  find (Tag (py "[document]")
          [Tag (py "p") [Str NavigableString (py "no heading " ++ [0xd83d])]]) (py "h1")
    = None /\
  @get_version_for_source (PlainMarkup.serves broken_page) kaufman_flash empty_world
    = (Raise broken_page_error, after_request (url kaufman_flash) empty_world).
Proof. repeat split; by vm_compute. Qed.

(** C6 (witness): a source of mode [rss] in front of the same page. *)
Lemma unrecognized_mode_hashes_example :
  let env := PlainMarkup.serves plain_page in
  mode feed_source = Some (py "rss") /\
  py "rss" <> py "latest_year" /\ py "rss" <> py "kaufman_title" /\ py "rss" <> py "hash" /\
  fetch_html (url feed_source) empty_world
    = (Ok plain_page, after_request (url feed_source) empty_world) /\
  get_version_for_source feed_source empty_world
    = (Ok (py "4f9ef5d87b"), after_request (url feed_source) empty_world).
Proof.
  intros env.
  assert (Hm : mode feed_source = Some (py "rss")) by reflexivity.
  assert (H1 : py "rss" <> py "latest_year") by (vm_compute; discriminate).
  assert (H2 : py "rss" <> py "kaufman_title") by (vm_compute; discriminate).
  assert (H3 : py "rss" <> py "hash") by (vm_compute; discriminate).
  assert (Hf : fetch_html (url feed_source) empty_world
               = (Ok plain_page, after_request (url feed_source) empty_world))
    by reflexivity.
  split; [exact Hm|]. split; [exact H1|]. split; [exact H2|]. split; [exact H3|].
  split; [exact Hf|].
  rewrite (proj1 (unrecognized_mode_hashes feed_source empty_world plain_page _ (py "rss")
                    Hm H1 H2 H3 Hf)).
  by vm_compute.
Defined.

(** C6 (counterexample): a source of unknown mode and a page with a lone
    surrogate: [get_version_for_source] raises the encoder's error. *)
Lemma unrecognized_mode_raises :
  @get_version_for_source (PlainMarkup.serves broken_page) feed_source empty_world
  = (Raise broken_page_error, after_request (url feed_source) empty_world).
Proof. by vm_compute. Qed.

(** C9 (witness): the title source in front of the example heading. *)
Lemma version_marker_nonempty_example :
  let env := PlainMarkup.serves report_page in
  get_version_for_source kaufman_flash empty_world
    = (Ok (py "Report Title 2025"), after_request (url kaufman_flash) empty_world) /\
  py "Report Title 2025" <> [].
Proof.
  intros env.
  assert (Hv : get_version_for_source kaufman_flash empty_world
    = (Ok (py "Report Title 2025"), after_request (url kaufman_flash) empty_world))
    by (by vm_compute).
  split; [exact Hv|].
  exact (proj1 (version_marker_nonempty kaufman_flash empty_world _ _ Hv)).
Defined.

(** The end-to-end examples of the specification: three sources, the
    second of which fails. *)
Example run_loop_three_sources :
  let env := PlainMarkup.env (fun n =>
    match n with
    | 1%nat => Raise (Exception "ConnectionError" (py "connection refused"))
    | _ => Ok (Response 200 (py "OK") [] (py "<p>Report 2023</p>"))
    end) in
  let a := Source (py "a") (py "A") (py "https://a.example") (Some (py "hash")) None in
  let b := Source (py "b") (py "B") (py "https://b.example") (Some (py "hash")) None in
  let c := Source (py "c") (py "C") (py "https://c.example") (Some (py "latest_year")) None in
  fst (run_loop [a; b; c] [] [] empty_world)
  = Ok ([py "- A: d5efd16971  (https://a.example)"; py "- C: 2023  (https://c.example)"],
        [py "[ERROR] b: connection refused"]) /\
  length (notified (snd (run_over [a; b; c] empty_world))) = 1%nat.
Proof. split; by vm_compute. Qed.

Example run_all_failed :
  let env := PlainMarkup.env (fun _ => Raise (Exception "ConnectionError" (py "down"))) in
  exists body,
    notified (snd (run empty_world))
    = [(py "Healthcare report watcher: ALL CHECKS FAILED", body)] /\
    length (omap failure_of (outcomes 0 SOURCES)) = 13%nat.
Proof. eexists. split; by vm_compute. Qed.

(** * Further properties of the watcher *)

(** ** The floor and the matches of [extract_latest_year] *)

(** X1: raising the floor never changes which year is reported: with a
    higher floor the answer is the same year, or none. *)
Theorem extract_latest_year_floor content m m' :
  m <= m' ->
  extract_latest_year content m' = Ok None \/
  extract_latest_year content m' = extract_latest_year content m.
Proof.
  intros Hle. rewrite !extract_latest_year_eq.
  destruct (latest_of (re_findall_year content) m') as [s|] eqn:E; [right|by left].
  apply latest_of_Some in E as (w & Hw & -> & Hge & Hub).
  f_equal. symmetry. apply latest_of_Some. exists w. repeat split; try done. lia.
Qed.

Lemma extract_latest_year_floor_example :
  2010 <= 2020 /\
  (extract_latest_year (py "...2024 and 2019...") 2020 = Ok None \/
   extract_latest_year (py "...2024 and 2019...") 2020
   = extract_latest_year (py "...2024 and 2019...") 2010).
Proof.
  split; [lia|]. apply (extract_latest_year_floor (py "...2024 and 2019...") 2010 2020). lia.
Defined.

Lemma re_findall_year_nonempty s pre a b c d post :
  s = pre ++ [a; b; c; d] ++ post -> year_match a b c d = true ->
  re_findall_year s <> [].
Proof.
  revert pre. apply (re_findall_year_ind (fun s ms => forall pre,
    s = pre ++ [a; b; c; d] ++ post -> year_match a b c d = true -> ms <> [])).
  - intros s0 Hs pre -> _. rewrite !length_app in Hs. simpl in Hs. lia.
  - done.
  - intros a0 b0 c0 d0 rest Hm0 IH [|x pre] E Hm; simpl in E.
    + injection E as -> -> -> -> _. congruence.
    + injection E as -> E. by eapply IH.
Qed.

(** X2: with a floor of 2000 or less, [extract_latest_year] answers
    [None] exactly when no four characters of the content match
    [20[0-4]\d]. *)
Theorem extract_latest_year_none_iff content floor :
  floor <= 2000 ->
  (extract_latest_year content floor = Ok None <->
   ~ exists pre a b c d post,
       content = pre ++ [a; b; c; d] ++ post /\ year_match a b c d = true).
Proof.
  intros Hfloor. rewrite extract_latest_year_eq. split.
  - intros [= Hnone] (pre & a & b & c & d & post & E & Hm).
    pose proof (re_findall_year_nonempty _ _ _ _ _ _ _ E Hm) as Hne.
    destruct (re_findall_year content) as [|w ws] eqn:Ew; [done|].
    rewrite latest_of_None in Hnone.
    specialize (Hnone w (list_elem_of_here _ _)).
    assert (Hin : w ∈ re_findall_year content) by (rewrite Ew; apply list_elem_of_here).
    apply re_findall_year_sound in Hin as (_ & a' & b' & c' & d' & _ & _ & -> & Hm').
    apply year_match_range in Hm'. lia.
  - intros Hno. f_equal. apply latest_of_None. intros w Hin. exfalso. apply Hno.
    apply re_findall_year_sound in Hin as (pre & a & b & c & d & post & E & _ & Hm).
    by exists pre, a, b, c, d, post.
Qed.

Lemma extract_latest_year_none_iff_example :
  1990 <= 2000 /\
  (extract_latest_year (py "no year on this page, 1999 apart") 1990 = Ok None <->
   ~ exists pre a b c d post,
       py "no year on this page, 1999 apart" = pre ++ [a; b; c; d] ++ post /\
       year_match a b c d = true).
Proof.
  split; [lia|].
  apply (extract_latest_year_none_iff (py "no year on this page, 1999 apart") 1990). lia.
Defined.

(** X3 (witness): in [202049] the match [2049] starts two characters
    after the reported match [2020]. *)
Lemma re_findall_year_complete_example :
  py "202049" = py "20" ++ [0x32; 0x30; 0x34; 0x39] ++ [] /\
  year_match 0x32 0x30 0x34 0x39 = true /\
  ([0x32; 0x30; 0x34; 0x39] ∈ re_findall_year (py "202049") \/
   exists pre' a' b' c' d' post',
     py "202049" = pre' ++ [a'; b'; c'; d'] ++ post' /\ year_match a' b' c' d' = true /\
     [a'; b'; c'; d'] ∈ re_findall_year (py "202049") /\
     (length pre' < length (py "20") < length pre' + 4)%nat).
Proof.
  assert (E : py "202049" = py "20" ++ [0x32; 0x30; 0x34; 0x39] ++ []) by reflexivity.
  assert (Hm : year_match 0x32 0x30 0x34 0x39 = true) by reflexivity.
  split; [exact E|]. split; [exact Hm|].
  exact (re_findall_year_complete (py "202049") (py "20") 0x32 0x30 0x34 0x39 [] E Hm).
Defined.

(** ** Tidy titles *)

Lemma collapse_from_tidy s :
  tidy false (collapse_from true false s) = true /\
  tidy false (collapse_from true true s) = true /\
  (collapse_from false false s = [] \/ tidy true (collapse_from false false s) = true).
Proof.
  induction s as [|c s (IH1 & IH2 & IH3)]; [by repeat split; auto|].
  cbn [collapse_from]. destruct (isspace c) eqn:Ec; [done|].
  cbn [app tidy]. rewrite !Ec. change (isspace 32) with true.
  repeat split; auto.
Qed.

Lemma tidy_collapse t :
  (tidy false t = true -> collapse_from true false t = t) /\
  (tidy true t = true -> collapse_from true true t = 0x20 :: t) /\
  (tidy true t = true -> collapse_from false false t = t).
Proof.
  induction t as [|c t (IHa & IHb & IHc)]; [by repeat split|].
  cbn [tidy collapse_from]. destruct (isspace c) eqn:Ec; cbn [negb andb].
  - repeat split; try done.
    intros [->%Z.eqb_eq Ht]%andb_prop. by rewrite IHb.
  - repeat split; intros Ht; cbn [app]; by rewrite IHa.
Qed.

(** ** Visible characters *)

Lemma visible_app a b : visible (a ++ b) = visible a ++ visible b.
Proof. apply List.filter_app. Qed.

Lemma visible_blank a : blank a = true -> visible a = [].
Proof.
  induction a as [|c a IH]; [done|]. simpl. intros [-> Ha]%andb_prop. auto.
Qed.

Lemma visible_collapse_from started pending s :
  visible (collapse_from started pending s) = visible s.
Proof.
  revert started pending. induction s as [|c s IH]; intros started pending; [done|].
  cbn [collapse_from]. unfold visible at 2. cbn [List.filter].
  destruct (isspace c) eqn:Ec; cbn [negb]; [apply IH|].
  rewrite visible_app, IH.
  destruct pending; unfold visible at 1; cbn [List.filter];
    rewrite ?Ec; by change (isspace 32) with true.
Qed.

Lemma visible_strip s : visible (strip s) = visible s.
Proof.
  destruct (strip_split s) as (a & b & Ha & Hb & Es).
  rewrite Es at 2. rewrite !visible_app, (visible_blank a), (visible_blank b) by done.
  by rewrite app_nil_r.
Qed.

Lemma visible_stripped (strings : list pystr) :
  visible (concat (List.filter truthy (map strip strings))) = visible (concat strings).
Proof.
  induction strings as [|s strings IH]; [done|]. cbn [map List.filter concat].
  rewrite visible_app, <- IH, truthy_strip.
  destruct (blank s) eqn:Eb; cbn [negb].
  - by rewrite (visible_blank s).
  - cbn [concat]. by rewrite visible_app, visible_strip.
Qed.

(** ** Fetching and extracting *)

Section FurtherVersionProperties.
Context {env : Env}.

(** X4: [fetch_html] returns the body of the response exactly when the
    request returns and the status is neither 4xx nor 5xx; so any other
    status, 1xx and 3xx included, counts as a success.  It makes one
    request and changes nothing else. *)
Theorem fetch_html_succeeds_iff u w html :
  (fst (fetch_html u w) = Ok html <->
   exists resp, requests_get (length (requested w)) u = Ok resp /\
     text resp = html /\ (status_code resp < 400 \/ 600 <= status_code resp)) /\
  snd (fetch_html u w) = after_request u w.
Proof.
  split; [|done]. unfold fetch_html. cbn [fst].
  destruct (requests_get (length (requested w)) u) as [resp|e]; cbn.
  - unfold raise_for_status.
    destruct ((400 <=? status_code resp) && (status_code resp <? 500)) eqn:E4;
      [|destruct ((500 <=? status_code resp) && (status_code resp <? 600)) eqn:E5];
      cbn; split.
    + discriminate.
    + intros (r & [= <-] & _ & Hs). lia.
    + discriminate.
    + intros (r & [= <-] & _ & Hs). lia.
    + intros [= <-]. exists resp. repeat split; try done. lia.
    + by intros (r & [= <-] & <- & _).
  - split; [discriminate|]. by intros (r & ? & _).
Qed.

(** X5: whatever it returns or raises, [get_version_for_source] makes
    exactly one request, to the URL of the source, prints nothing and
    sends nothing. *)
Theorem get_version_for_source_one_request src w :
  let w' := snd (get_version_for_source src w) in
  requested w' = requested w ++ [url src] /\
  stdout w' = stdout w /\ delivered w' = delivered w /\ notified w' = notified w.
Proof. cbv zeta. by rewrite get_version_for_source_outcome. Qed.

Lemma extract_kaufman_title_raises html e :
  extract_kaufman_title html = Raise e -> BeautifulSoup html = Raise e.
Proof.
  unfold extract_kaufman_title. destruct (BeautifulSoup html) as [soup|e']; [|cbn; congruence].
  change (Ok soup ≫= ?f) with (f soup). cbv beta.
  destruct (find soup (py "h1")); [|done]. cbv zeta. by destruct (truthy _).
Qed.

(** X6: a source fails for one of three reasons only: its fetch raised;
    or it is a title source and the parser raised; or its content had to
    be hashed and holds a lone surrogate, which the encoder refuses.  A
    [latest_year] source fails only with its fetch. *)
Theorem get_version_for_source_failures src w e w' :
  get_version_for_source src w = (Raise e, w') ->
  fetch_html (url src) w = (Raise e, w') \/
  exists html, fetch_html (url src) w = (Ok html, w') /\
    default (py "hash") (mode src) <> py "latest_year" /\
    ((default (py "hash") (mode src) = py "kaufman_title" /\
      BeautifulSoup html = Raise e) \/
     (has_surrogate html = true /\ hash_page html = Raise e /\
      exn_class e = "UnicodeEncodeError"%string)).
Proof.
  intros Hv.
  destruct (fetch_html (url src) w) as [[html|e0] w1] eqn:Hf.
  2: { rewrite (get_version_for_source_failed _ _ _ _ Hf) in Hv.
       injection Hv as <- <-. by left. }
  right. exists html.
  rewrite (get_version_for_source_fetched _ _ _ _ Hf) in Hv. cbv zeta in Hv.
  assert (Hhash : forall w2, (hash_page html, w2) = (Raise e, w') ->
            w2 = w' /\ has_surrogate html = true /\ hash_page html = Raise e /\
            exn_class e = "UnicodeEncodeError"%string).
  { intros w2 [= Hh <-]. split; [done|].
    destruct (has_surrogate html) eqn:Es.
    - destruct (hash_page_raise _ Es) as (e1 & He1 & Hc).
      assert (e1 = e) as -> by congruence. done.
    - destruct (hash_page_ok _ Es) as (h & Hok & _). congruence. }
  repeat case_bool_decide.
  - exfalso. rewrite extract_latest_year_eq in Hv.
    change (Ok ?x ≫= ?f) with (f x) in Hv. cbv beta in Hv.
    destruct (latest_of _ _) as [s|]; simpl in Hv; [|discriminate].
    by destruct (truthy s).
  - destruct (extract_kaufman_title html) as [[t|]|e1] eqn:Ek;
      change (Ok ?x ≫= ?f) with (f x) in Hv; cbv beta in Hv; simpl in Hv.
    + rewrite (extract_kaufman_title_truthy _ _ Ek) in Hv. discriminate.
    + destruct (Hhash _ Hv) as (-> & Hs & Hh & Hc). split; [done|]. split; [done|].
      by right.
    + injection Hv as <- <-. split; [done|]. split; [done|]. left. split; [done|].
      by apply extract_kaufman_title_raises.
  - destruct (Hhash _ Hv) as (-> & Hs & Hh & Hc). split; [done|]. split; [done|].
    by right.
Qed.

(** X7: a title returned by [extract_kaufman_title] is tidy: it is not
    empty, it neither starts nor ends with whitespace, its only whitespace
    characters are single spaces between words, and collapsing it again
    changes nothing. *)
Theorem extract_kaufman_title_tidy html t :
  extract_kaufman_title html = Ok (Some t) ->
  tidy true t = true /\ collapse t = t.
Proof.
  unfold extract_kaufman_title. destruct (BeautifulSoup html) as [soup|e]; [|done].
  change (Ok soup ≫= ?f) with (f soup). cbv beta.
  destruct (find soup (py "h1")) as [h1|]; [|done]. cbv zeta.
  rewrite join_split_collapse.
  destruct (truthy (collapse (get_text_strip h1))) eqn:Et; [|done].
  intros [= <-].
  assert (Htidy : tidy true (collapse (get_text_strip h1)) = true).
  { destruct (collapse_from_tidy (get_text_strip h1)) as (_ & _ & [Hnil|Ht]); [|done].
    unfold collapse in Et. by rewrite Hnil in Et. }
  split; [done|]. by apply tidy_collapse.
Qed.

(** X8: the title keeps the characters of the heading that are not
    whitespace, all of them and in their order, whatever elements the
    heading is made of; it is [None] exactly when the heading has no such
    character. *)
Theorem extract_kaufman_title_visible html soup h1 :
  BeautifulSoup html = Ok soup ->
  find soup (py "h1") = Some h1 ->
  exists t,
    extract_kaufman_title html = Ok (if blank (get_text h1) then None else Some t) /\
    visible t = visible (get_text h1).
Proof.
  intros Hs Hf. exists (collapse (get_text_strip h1)).
  rewrite (extract_kaufman_title_heading _ _ _ Hs Hf).
  rewrite truthy_collapse, get_text_strip_blank. split; [by destruct (blank _)|].
  unfold collapse. rewrite visible_collapse_from.
  unfold get_text_strip, get_text. apply visible_stripped.
Qed.

(** X9: a source without [mode] is hashed, exactly as a source of mode
    [hash], and its [min_year] plays no part. *)
Theorem absent_mode_hashes i n u my w :
  get_version_for_source (Source i n u None my) w
  = get_version_for_source (Source i n u (Some (py "hash")) None) w /\
  (forall html w', fetch_html u w = (Ok html, w') ->
     get_version_for_source (Source i n u None my) w = (hash_page html, w')).
Proof.
  split.
  - rewrite !get_version_for_source_outcome. unfold outcome_at.
    destruct (fetch_html u (World (replicate (length (requested w)) []) [] [] []))
      as [[html|e] w1] eqn:Hf.
    + by rewrite (get_version_for_source_fetched (Source i n u None my) _ html w1),
                 (get_version_for_source_fetched (Source i n u (Some (py "hash")) None) _ html w1).
    + by rewrite (get_version_for_source_failed (Source i n u None my) _ e w1),
                 (get_version_for_source_failed (Source i n u (Some (py "hash")) None) _ e w1).
  - intros html w' Hf.
    by rewrite (get_version_for_source_fetched (Source i n u None my) _ html w').
Qed.

End FurtherVersionProperties.

(** X4 (example): a response with status 304 is content. *)
Example fetch_html_not_modified :
  @fetch_html (PlainMarkup.env (fun _ => Ok not_modified)) (py "https://a.example") empty_world
  = (Ok (py "cached 2024"), after_request (py "https://a.example") empty_world).
Proof. reflexivity. Qed.

(** X6 (witness): the source of unknown mode in front of the page with a
    lone surrogate. *)
Lemma get_version_for_source_failures_example :
  let env := PlainMarkup.serves broken_page in
  get_version_for_source feed_source empty_world
    = (Raise broken_page_error, after_request (url feed_source) empty_world) /\
  has_surrogate broken_page = true /\
  exn_class broken_page_error = "UnicodeEncodeError"%string.
Proof.
  intros env.
  assert (Hv : get_version_for_source feed_source empty_world
               = (Raise broken_page_error, after_request (url feed_source) empty_world))
    by (by vm_compute).
  split; [exact Hv|].
  destruct (get_version_for_source_failures feed_source empty_world _ _ Hv)
    as [Hf|(html & Hf & _ & [[Hm _]|(Hs & _ & Hc)])].
  - exfalso. revert Hf. by vm_compute.
  - exfalso. revert Hm. by vm_compute.
  - split; [|exact Hc].
    assert (html = broken_page) as <- by (revert Hf; vm_compute; congruence).
    exact Hs.
Defined.

(** X7 (witness): the title of the example heading. *)
Lemma extract_kaufman_title_tidy_example :
  @extract_kaufman_title (PlainMarkup.serves report_page) report_page
    = Ok (Some (py "Report Title 2025")) /\
  tidy true (py "Report Title 2025") = true /\
  collapse (py "Report Title 2025") = py "Report Title 2025".
Proof.
  assert (Ht : @extract_kaufman_title (PlainMarkup.serves report_page) report_page
               = Ok (Some (py "Report Title 2025"))) by reflexivity.
  split; [exact Ht|].
  exact (@extract_kaufman_title_tidy (PlainMarkup.serves report_page) report_page _ Ht).
Defined.

(** X8 (witness): the heading split by an inline element: the title is
    [ReportTitle], and the letters of [Report Title] are all there. *)
Lemma extract_kaufman_title_visible_example :
  @BeautifulSoup (PlainMarkup.serves inline_page) inline_page
    = Ok (Tag (py "[document]") [inline_heading]) /\
  find (Tag (py "[document]") [inline_heading]) (py "h1") = Some inline_heading /\
  exists t,
    @extract_kaufman_title (PlainMarkup.serves inline_page) inline_page
      = Ok (if blank (get_text inline_heading) then None else Some t) /\
    visible t = visible (get_text inline_heading).
Proof.
  assert (Hs : @BeautifulSoup (PlainMarkup.serves inline_page) inline_page
               = Ok (Tag (py "[document]") [inline_heading])) by reflexivity.
  assert (Hf : find (Tag (py "[document]") [inline_heading]) (py "h1") = Some inline_heading)
    by reflexivity.
  split; [exact Hs|]. split; [exact Hf|].
  exact (@extract_kaufman_title_visible (PlainMarkup.serves inline_page) inline_page _ _ Hs Hf).
Defined.

(** ** The notification and the transcript of a run *)

Section FurtherRunProperties.
Context {env : Env}.












End FurtherRunProperties.



